(** * Refund administration (payment/admin.py)

    A shallow embedding of the admin actions of [RefundRequestAdmin] and of
    the derived column of [RefundItemAdmin].  The ORM tables are finite maps
    keyed by primary key, an admin action is a function from the selected
    primary keys and the world to the world it leaves behind, and the three
    helpers imported from [models.py] are parameters of the development. *)

From stdpp Require Import gmap strings list fin_maps pretty.

Open Scope Z_scope.

(** ** Data model *)

(** The [status] choices of a refund request. *)
Inductive Status :=
  | PENDING_RETURN
  | PRODUCT_RECEIVED
  | PROCESSING_REFUND
  | COMPLETED
  | REJECTED.

Global Instance Status_eq_dec : EqDecision Status.
Proof. solve_decision. Defined.

(** [django.contrib.messages] levels used by the actions. *)
Inductive Level := SUCCESS | WARNING | ERROR.

Global Instance Level_eq_dec : EqDecision Level.
Proof. solve_decision. Defined.

Record Message := { level : Level; text : string }.

(** A Python exception of class [Exception]; [str e] is what an f-string
    prints for it. *)
Record exn := Exception { str : string }.

(** How a call ends: it returns a value or raises. *)
Inductive outcome (A : Type) :=
  | Returned (a : A)
  | Raised (e : exn).
Arguments Returned {A} a.
Arguments Raised {A} e.

Record User := { username : string }.

(** Modelled from the spec: [models.py] is not among the sources, so the
    columns of [RefundRequest] are the ones the admin reads or writes.
    [rewards_used] is a dollar amount with two decimals, held in cents;
    timestamps are readings of the clock. *)
Record RefundRow := {
  status : Status;
  user : option User;
  rewards_used : Z;
  product_received_at : option Z;
  refund_completed_at : option Z;
  rejection_reason : string;
  admin_notes : string
}.

(** An ORM instance of [RefundRequest]: the primary key and the column
    values loaded with it. *)
Record RefundRequest := { id : Z; row : RefundRow }.

(** Modelled from the spec: the columns of [RefundItem]; both foreign keys
    are stored as primary keys. *)
Record RefundItem := {
  refund_request : Z;
  order_item : option Z;
  quantity_to_refund : Z;
  condition_acceptable : bool;
  restocked : bool
}.

(** Modelled from the spec: an order line points to its product, a product
    has a title. *)
Record OrderItem := { product : option Z }.
Record Product := { title : string }.

(** The world an action runs in: the tables, the stock and loyalty balances
    the helpers act on, the clock read by [timezone.now()] and the messages
    shown to the administrator. *)
Record World := {
  refunds : gmap Z RefundRow;
  items : gmap Z RefundItem;
  order_items : gmap Z OrderItem;
  products : gmap Z Product;
  inventory : gmap Z Z;
  reward_accounts : gmap string Z;
  clock : Z;
  messages : list Message
}.

(** ** Field assignment *)

Definition set_status (s : Status) (r : RefundRow) : RefundRow :=
  {| status := s; user := user r; rewards_used := rewards_used r;
     product_received_at := product_received_at r;
     refund_completed_at := refund_completed_at r;
     rejection_reason := rejection_reason r; admin_notes := admin_notes r |}.

Definition set_product_received_at (t : Z) (r : RefundRow) : RefundRow :=
  {| status := status r; user := user r; rewards_used := rewards_used r;
     product_received_at := Some t;
     refund_completed_at := refund_completed_at r;
     rejection_reason := rejection_reason r; admin_notes := admin_notes r |}.

Definition set_refund_completed_at (t : Z) (r : RefundRow) : RefundRow :=
  {| status := status r; user := user r; rewards_used := rewards_used r;
     product_received_at := product_received_at r;
     refund_completed_at := Some t;
     rejection_reason := rejection_reason r; admin_notes := admin_notes r |}.

Definition assign (f : RefundRow → RefundRow) (r : RefundRequest) : RefundRequest :=
  {| id := id r; row := f (row r) |}.

Definition set_condition_acceptable (b : bool) (it : RefundItem) : RefundItem :=
  {| refund_request := refund_request it; order_item := order_item it;
     quantity_to_refund := quantity_to_refund it;
     condition_acceptable := b; restocked := restocked it |}.

Definition with_refunds (m : gmap Z RefundRow) (w : World) : World :=
  {| refunds := m; items := items w; order_items := order_items w;
     products := products w; inventory := inventory w;
     reward_accounts := reward_accounts w; clock := clock w;
     messages := messages w |}.

Definition with_items (m : gmap Z RefundItem) (w : World) : World :=
  {| refunds := refunds w; items := m; order_items := order_items w;
     products := products w; inventory := inventory w;
     reward_accounts := reward_accounts w; clock := clock w;
     messages := messages w |}.

(** ** ORM and framework primitives *)

(** [self.message_user(request, text, level=...)]. *)
Definition message_user (lv : Level) (t : string) (w : World) : World :=
  {| refunds := refunds w; items := items w; order_items := order_items w;
     products := products w; inventory := inventory w;
     reward_accounts := reward_accounts w; clock := clock w;
     messages := messages w ++ [{| level := lv; text := t |}] |}.

(** [timezone.now()]. *)
Definition timezone_now (w : World) : Z := clock w.

(** [refund.save()]: the row with the instance's primary key takes the
    instance's column values. *)
Definition save (r : RefundRequest) (w : World) : World :=
  with_refunds (<[id r := row r]> (refunds w)) w.

(** A queryset of refund requests, as the change list hands it to an action:
    the primary keys of the selected rows, in result order. *)
Abbreviation QuerySet := (list Z).

(** Evaluating a queryset loads one instance per selected row that exists. *)
Definition fetch (qs : QuerySet) (w : World) : list RefundRequest :=
  omap (λ i, (λ r, {| id := i; row := r |}) <$> refunds w !! i) qs.

(** [queryset.filter(status=s)], evaluated. *)
Definition filter_status (s : Status) (qs : QuerySet) (w : World) : list RefundRequest :=
  filter (λ r, status (row r) = s) (fetch qs w).

(** [refund.items.all().update(condition_acceptable=True)]. *)
Definition update_items_acceptable (r : RefundRequest) (w : World) : World :=
  with_items
    ((λ it, if decide (refund_request it = id r)
            then set_condition_acceptable true it else it) <$> items w) w.

(** The items of the refund request with primary key [i]. *)
Definition items_of (i : Z) (w : World) : gmap Z RefundItem :=
  filter (λ kv, refund_request kv.2 = i) (items w).

(** ** Formatting *)

(** [f'{n}'] for an integer. *)
Definition fmt_int (n : Z) : string := pretty n.

Definition two_digits (n : Z) : string :=
  if decide (n < 10) then "0" +:+ pretty n else pretty n.

(** [f'{d:.2f}'] for an amount of [c] cents. *)
Definition fmt_money (c : Z) : string :=
  (if decide (c < 0) then "-" else EmptyString) +:+
  pretty (Z.abs c / 100) +:+ "." +:+ two_digits (Z.abs c mod 100).

(** The double quote character, as a string. *)
Definition dquote : string := String (Ascii.ascii_of_nat 34) EmptyString.

(** [sep.join(l)]. *)
Fixpoint join (sep : string) (l : list string) : string :=
  match l with
  | [] => EmptyString
  | [s] => s
  | s :: l => s +:+ sep +:+ join sep l
  end.

(** [sum(l)] over amounts. *)
Definition sum (l : list Z) : Z := foldr Z.add 0 l.

(** ** Calls that may raise *)

Global Instance outcome_ret : MRet outcome := λ A a, Returned a.

Global Instance outcome_bind : MBind outcome := λ A B k c,
  match c with
  | Returned a => k a
  | Raised e => Raised e
  end.

(** A helper of [models.py] receives the instance and may change it, change
    the world, and return or raise. *)
Definition Helper (A : Type) : Type :=
  RefundRequest → World → RefundRequest * World * outcome A.

(** ** RefundItemAdmin.product_name *)

Module RefundItemAdmin.

(** [obj.order_item]: a null foreign key reads as [None], a dangling one
    raises [DoesNotExist]. *)
Definition attr_order_item (obj : RefundItem) (w : World)
  : outcome (option OrderItem) :=
  match order_item obj with
  | None => Returned None
  | Some k =>
      match order_items w !! k with
      | Some oi => Returned (Some oi)
      | None => Raised (Exception "OrderItem matching query does not exist.")
      end
  end.

(** [_.product]. *)
Definition attr_product (oi : option OrderItem) (w : World)
  : outcome (option Product) :=
  match oi with
  | None => Raised (Exception "'NoneType' object has no attribute 'product'")
  | Some oi =>
      match product oi with
      | None => Returned None
      | Some k =>
          match products w !! k with
          | Some p => Returned (Some p)
          | None => Raised (Exception "Product matching query does not exist.")
          end
      end
  end.

(** [_.title]. *)
Definition attr_title (p : option Product) : outcome string :=
  match p with
  | None => Raised (Exception "'NoneType' object has no attribute 'title'")
  | Some p => Returned (title p)
  end.

(** [obj.order_item.product.title]. *)
Definition deref_title (obj : RefundItem) (w : World) : outcome string :=
  oi ← attr_order_item obj w;
  p ← attr_product oi w;
  attr_title p.

Definition product_name (obj : RefundItem) (w : World) : string :=
  match deref_title obj w with
  | Returned t => t
  | Raised e => "Error: " +:+ str e
  end.

End RefundItemAdmin.

(** ** RefundRequestAdmin *)

Module RefundRequestAdmin.

(** The counters of [restore_rewards_goodwill]. *)
Record Counters := {
  restored_count : Z;
  no_rewards_count : Z;
  already_restored_count : Z;
  guest_count : Z
}.

Definition zero : Counters :=
  {| restored_count := 0; no_rewards_count := 0;
     already_restored_count := 0; guest_count := 0 |}.

Definition incr_restored (c : Counters) : Counters :=
  {| restored_count := restored_count c + 1;
     no_rewards_count := no_rewards_count c;
     already_restored_count := already_restored_count c;
     guest_count := guest_count c |}.

Definition incr_no_rewards (c : Counters) : Counters :=
  {| restored_count := restored_count c;
     no_rewards_count := no_rewards_count c + 1;
     already_restored_count := already_restored_count c;
     guest_count := guest_count c |}.

Definition incr_already_restored (c : Counters) : Counters :=
  {| restored_count := restored_count c;
     no_rewards_count := no_rewards_count c;
     already_restored_count := already_restored_count c + 1;
     guest_count := guest_count c |}.

Definition incr_guest (c : Counters) : Counters :=
  {| restored_count := restored_count c;
     no_rewards_count := no_rewards_count c;
     already_restored_count := already_restored_count c;
     guest_count := guest_count c + 1 |}.

Definition counted (c : Counters) : Z :=
  restored_count c + already_restored_count c
  + no_rewards_count c + guest_count c.

(** Python truth value of [refund.user]. *)
Definition has_user (r : RefundRequest) : bool :=
  bool_decide (is_Some (user (row r))).

(** Requests of a registered user with rewards used: the ones
    [restore_rewards_goodwill] calls its helper on. *)
Definition eligible (r : RefundRequest) : Prop :=
  has_user r = true ∧ 0 < rewards_used (row r).

Global Instance eligible_dec (r : RefundRequest) : Decision (eligible r).
Proof. unfold eligible. apply _. Defined.

Section Actions.

Variable restock_refunded_items : Helper unit.
Variable process_rewards_refund : Helper unit.
Variable restore_used_rewards : Helper bool.

(** *** mark_product_received *)

Definition restock_error (refund : RefundRequest) (e : exn) : string :=
  "Error restocking items for refund #" +:+ fmt_int (id refund)
  +:+ ": " +:+ str e.

(** The state of [refund] and of the world when the restock helper is
    called. *)
Definition mark_received (refund : RefundRequest) (w : World)
  : RefundRequest * World :=
  let refund := assign (set_status PRODUCT_RECEIVED) refund in
  let refund := assign (set_product_received_at (timezone_now w)) refund in
  let w := save refund w in
  let w := update_items_acceptable refund w in
  (refund, w).

(** One turn of the loop. *)
Definition mark_body (st : World * Z) (refund : RefundRequest) : World * Z :=
  let '(w, updated) := st in
  let '(refund, w) := mark_received refund w in
  let '(refund, w, res) := restock_refunded_items refund w in
  let w :=
    match res with
    | Returned _ => w
    | Raised e => message_user ERROR (restock_error refund e) w
    end in
  (w, updated + 1).

Definition mark_loop (st : World * Z) (l : list RefundRequest) : World * Z :=
  foldl mark_body st l.

Definition mark_summary (updated : Z) : string :=
  fmt_int updated
  +:+ " refund(s) marked as product received and items restocked.".

Definition mark_product_received (queryset : QuerySet) (w : World) : World :=
  let '(w, updated) :=
    mark_loop (w, 0) (filter_status PENDING_RETURN queryset w) in
  message_user SUCCESS (mark_summary updated) w.

(** *** manual_restock_items *)

(** [queryset.filter(status__in=ss)], evaluated. *)
Definition filter_status_in (ss : list Status) (qs : QuerySet) (w : World)
  : list RefundRequest :=
  filter (λ r, status (row r) ∈ ss) (fetch qs w).

(** The statuses in which a product has been received. *)
Definition received_statuses : list Status :=
  [PRODUCT_RECEIVED; PROCESSING_REFUND; COMPLETED].

Definition manual_body (st : World * Z) (refund : RefundRequest) : World * Z :=
  let '(w, restocked_count) := st in
  let '(refund, w, res) := restock_refunded_items refund w in
  match res with
  | Returned _ => (w, restocked_count + 1)
  | Raised e =>
      (message_user ERROR (restock_error refund e) w, restocked_count)
  end.

Definition manual_loop (st : World * Z) (l : list RefundRequest) : World * Z :=
  foldl manual_body st l.

Definition manual_summary (restocked_count : Z) : string :=
  "Manually restocked items for " +:+ fmt_int restocked_count
  +:+ " refund(s).".

Definition manual_nothing : string :=
  "No items were restocked. Items may already be restocked or not marked "
  +:+ "as acceptable condition.".

Definition manual_restock_items (queryset : QuerySet) (w : World) : World :=
  let '(w, restocked_count) :=
    manual_loop (w, 0) (filter_status_in received_statuses queryset w) in
  if decide (0 < restocked_count) then
    message_user SUCCESS (manual_summary restocked_count) w
  else
    message_user WARNING manual_nothing w.

(** *** process_paypal_refund *)

Definition paypal_body (st : World * Z) (refund : RefundRequest) : World * Z :=
  let '(w, updated) := st in
  let refund := assign (set_status PROCESSING_REFUND) refund in
  (save refund w, updated + 1).

Definition paypal_loop (st : World * Z) (l : list RefundRequest) : World * Z :=
  foldl paypal_body st l.

Definition paypal_summary (updated : Z) : string :=
  fmt_int updated
  +:+ " refund(s) marked as processing. Please process refunds in PayPal "
  +:+ "dashboard and enter transaction IDs.".

Definition process_paypal_refund (queryset : QuerySet) (w : World) : World :=
  let '(w, updated) :=
    paypal_loop (w, 0) (filter_status PRODUCT_RECEIVED queryset w) in
  message_user WARNING (paypal_summary updated) w.

(** *** complete_refund *)

Definition rewards_error (refund : RefundRequest) (e : exn) : string :=
  "Error processing rewards for refund #" +:+ fmt_int (id refund)
  +:+ ": " +:+ str e.

(** The tail of a turn, reached unless the helper raised. *)
Definition complete_finish (st : World * Z) (refund : RefundRequest)
  : World * Z :=
  let '(w, updated) := st in
  let refund := assign (set_status COMPLETED) refund in
  let refund := assign (set_refund_completed_at (timezone_now w)) refund in
  (save refund w, updated + 1).

Definition complete_body (st : World * Z) (refund : RefundRequest)
  : World * Z :=
  let '(w, updated) := st in
  if has_user refund then
    let '(refund, w, res) := process_rewards_refund refund w in
    match res with
    | Raised e => (message_user ERROR (rewards_error refund e) w, updated)
    | Returned _ => complete_finish (w, updated) refund
    end
  else complete_finish (w, updated) refund.

Definition complete_loop (st : World * Z) (l : list RefundRequest) : World * Z :=
  foldl complete_body st l.

Definition complete_summary (updated : Z) : string :=
  fmt_int updated
  +:+ " refund(s) completed successfully. Earned rewards have been deducted. "
  +:+ "Used rewards were NOT restored (use " +:+ dquote
  +:+ "Restore rewards as goodwill" +:+ dquote +:+ " if approved).".

Definition complete_refund (queryset : QuerySet) (w : World) : World :=
  let '(w, updated) :=
    complete_loop (w, 0) (filter_status PROCESSING_REFUND queryset w) in
  message_user SUCCESS (complete_summary updated) w.

(** *** restore_rewards_goodwill *)

(** The loop over the evaluated queryset.  [seen] holds the instances
    already visited, as the helper left them: the queryset caches its
    instances, and the total below walks the same objects again.  An
    exception of the helper is not caught and ends the action. *)
Fixpoint restore_loop (todo seen : list RefundRequest) (c : Counters)
    (w : World) : World * outcome (list RefundRequest * Counters) :=
  match todo with
  | [] => (w, Returned (seen, c))
  | refund :: todo =>
      if negb (has_user refund) then
        restore_loop todo (seen ++ [refund]) (incr_guest c) w
      else if decide (rewards_used (row refund) ≤ 0) then
        restore_loop todo (seen ++ [refund]) (incr_no_rewards c) w
      else
        let '(refund, w, res) := restore_used_rewards refund w in
        match res with
        | Raised e => (w, Raised e)
        | Returned success =>
            if success : bool then
              restore_loop todo (seen ++ [refund]) (incr_restored c) w
            else
              restore_loop todo (seen ++ [refund]) (incr_already_restored c) w
        end
  end.

(** [sum([r.rewards_used for r in queryset
          if r.user and r.rewards_used > 0])]. *)
Definition reported_total (cache : list RefundRequest) : Z :=
  sum ((λ r, rewards_used (row r)) <$>
       filter (λ r, has_user r = true ∧ 0 < rewards_used (row r)) cache).

Definition restore_messages (c : Counters) (cache : list RefundRequest)
  : list string :=
  (if decide (0 < restored_count c)
   then [fmt_int (restored_count c) +:+ " customer(s) had $"
         +:+ fmt_money (reported_total cache) +:+ " in rewards restored"]
   else [])
  ++ (if decide (0 < already_restored_count c)
      then [fmt_int (already_restored_count c)
            +:+ " already had rewards restored"]
      else [])
  ++ (if decide (0 < no_rewards_count c)
      then [fmt_int (no_rewards_count c)
            +:+ " had no rewards used in original purchase"]
      else [])
  ++ (if decide (0 < guest_count c)
      then [fmt_int (guest_count c)
            +:+ " were guest orders (no rewards to restore)"]
      else []).

Definition restore_report (c : Counters) (cache : list RefundRequest)
    (w : World) : World :=
  let messages_list := restore_messages c cache in
  if decide (0 < restored_count c) then
    message_user SUCCESS
      ("Rewards restored as goodwill gesture: " +:+ join ", " messages_list) w
  else
    message_user WARNING
      ("No rewards restored: " +:+ join ", " messages_list) w.

Definition restore_rewards_goodwill (queryset : QuerySet) (w : World)
  : World * outcome unit :=
  match restore_loop (fetch queryset w) [] zero w with
  | (w, Raised e) => (w, Raised e)
  | (w, Returned (cache, c)) => (restore_report c cache w, Returned ())
  end.

End Actions.

(** *** reject_refund *)

(** The rows of [queryset.exclude(status__in=['COMPLETED', 'REJECTED'])]. *)
Definition rejectable (queryset : QuerySet) (i : Z) (r : RefundRow) : bool :=
  bool_decide (i ∈ queryset)
  && negb (bool_decide (status r ∈ [COMPLETED; REJECTED])).

(** [.update(status='REJECTED')]: one statement over the table; it returns
    the number of rows it matched. *)
Definition update_rejected (queryset : QuerySet) (w : World) : World * Z :=
  let updated :=
    Z.of_nat (size (filter (λ kv, rejectable queryset kv.1 kv.2 = true)
                           (refunds w))) in
  (with_refunds
     (map_imap (λ i r, Some (if rejectable queryset i r
                             then set_status REJECTED r else r))
               (refunds w)) w,
   updated).

Definition reject_summary (updated : Z) : string :=
  fmt_int updated
  +:+ " refund(s) rejected. Please add rejection reason in admin notes.".

Definition reject_refund (queryset : QuerySet) (w : World) : World :=
  let '(w, updated) := update_rejected queryset w in
  message_user WARNING (reject_summary updated) w.

End RefundRequestAdmin.

(** ** What the helpers are expected to leave alone *)

(** Modelled from the spec: the restock helper writes the stock and the items
    of the request it is called on; it writes no refund request and no item
    of another request. *)
Definition restock_frame (h : Helper unit) : Prop :=
  ∀ refund w,
    refunds (h refund w).1.2 = refunds w
    ∧ ∀ j, j ≠ id refund → items_of j (h refund w).1.2 = items_of j w.

(** A rewards helper that keeps to the request it is called on: it hands
    back an instance with the same primary key and writes no other refund
    request. *)
Definition rewards_frame (h : Helper unit) : Prop :=
  ∀ refund w,
    id (h refund w).1.1 = id refund
    ∧ ∀ j, j ≠ id refund → refunds (h refund w).1.2 !! j = refunds w !! j.

(** A rewards helper that succeeds: it returns, leaves the instance as it
    got it and writes no refund request. *)
Definition rewards_succeeds (h : Helper unit) : Prop :=
  ∀ refund w,
    (h refund w).1.1 = refund
    ∧ refunds (h refund w).1.2 = refunds w
    ∧ (h refund w).2 = Returned ().

(** A helper that always returns, and one that always raises. *)
Definition always_returns {A} (h : Helper A) : Prop :=
  ∀ refund w, ∃ a, (h refund w).2 = Returned a.

Definition always_raises {A} (h : Helper A) : Prop :=
  ∀ refund w, ∃ e, (h refund w).2 = Raised e.

(** A helper that hands the instance back as it got it. *)
Definition keeps_instance {A} (h : Helper A) : Prop :=
  ∀ refund w, (h refund w).1.1 = refund.

(** The bulk effect of [process_paypal_refund] on a row. *)
Definition to_processing (qs : QuerySet) (i : Z) (r : RefundRow) : RefundRow :=
  if bool_decide (i ∈ qs ∧ status r = PRODUCT_RECEIVED)
  then set_status PROCESSING_REFUND r else r.

(** The database part of the world, the messages left out. *)
Definition database (w : World) :=
  (refunds w, items w, order_items w, products w, inventory w,
   reward_accounts w, clock w).

(** The world after calling a helper on each of [calls] in turn. *)
Definition run_helper {A} (h : Helper A) (calls : list RefundRequest)
    (w : World) : World :=
  foldl (λ w refund, (h refund w).1.2) w calls.

(** ** Storefront routing (store/urls.py) *)

Module StoreUrls.

(** The view functions the routes point to. *)
Inductive View :=
  | store
  | product_info
  | list_category
  | list_brand
  | search_products.

Global Instance View_eq_dec : EqDecision View.
Proof. solve_decision. Defined.

(** The path converters used by the routes. *)
Inductive Converter := slug_converter | str_converter.

(** A route is a sequence of literal text and [<converter:name>] groups. *)
Inductive Part :=
  | Lit (s : string)
  | Arg (c : Converter) (name : string).

Record Route := { route : list Part; view : View; name : string }.

(** [path(route, view, name=...)]. *)
Definition path (r : list Part) (v : View) (n : string) : Route :=
  {| route := r; view := v; name := n |}.

Definition urlpatterns : list Route :=
  [ path [] store "store";
    path [Lit "product/"; Arg slug_converter "product_slug"; Lit "/"]
         product_info "product-info";
    path [Lit "search/"; Arg slug_converter "category_slug"; Lit "/"]
         list_category "list-category";
    path [Lit "brand/"; Arg str_converter "brand_name"; Lit "/"]
         list_brand "list-brand";
    path [Lit "search-products/"] search_products "search-products" ].

(** The character classes of the converters: [[-a-zA-Z0-9_]] for [slug],
    [[^/]] for [str]. *)
Definition slug_char (a : Ascii.ascii) : bool :=
  let n := Ascii.N_of_ascii a in
  ((48 <=? n) && (n <=? 57) || (65 <=? n) && (n <=? 90)
   || (97 <=? n) && (n <=? 122) || (n =? 45) || (n =? 95))%N.

Definition str_char (a : Ascii.ascii) : bool :=
  negb (Ascii.N_of_ascii a =? 47)%N.

Definition conv_char (c : Converter) : Ascii.ascii → bool :=
  match c with
  | slug_converter => slug_char
  | str_converter => str_char
  end.

Fixpoint all_chars (ok : Ascii.ascii → bool) (s : string) : bool :=
  match s with
  | EmptyString => true
  | String a s => ok a && all_chars ok s
  end.

(** The rest of [s] after the literal [p], when [s] starts with it. *)
Fixpoint strip_prefix (p s : string) : option string :=
  match p, s with
  | EmptyString, _ => Some s
  | String a p, String b s =>
      if Ascii.eqb a b then strip_prefix p s else None
  | String _ _, EmptyString => None
  end.

(** A group [(?P<name>[class]+)]: one or more characters of the class,
    the longest run first, followed by a match [k] of what comes next. *)
Fixpoint capture {R} (ok : Ascii.ascii → bool) (k : string → option R)
    (pre s : string) : option (string * R) :=
  match s with
  | EmptyString => None
  | String a s =>
      if ok a then
        match capture ok k (pre +:+ String a EmptyString) s with
        | Some r => Some r
        | None => (λ r, (pre +:+ String a EmptyString, r)) <$> k s
        end
      else None
  end.

(** A route matches the whole path and yields the captured arguments. *)
Fixpoint match_route (ps : list Part) (s : string)
  : option (list (string * string)) :=
  match ps with
  | [] => if decide (s = EmptyString) then Some [] else None
  | Lit l :: ps => strip_prefix l s ≫= match_route ps
  | Arg c n :: ps =>
      (λ vk, (n, vk.1) :: vk.2)
      <$> capture (conv_char c) (match_route ps) EmptyString s
  end.

(** The first route of the table that matches decides. *)
Fixpoint resolve_in (rs : list Route) (s : string)
  : option (View * list (string * string)) :=
  match rs with
  | [] => None
  | r :: rs =>
      match match_route (route r) s with
      | Some kw => Some (view r, kw)
      | None => resolve_in rs s
      end
  end.

Definition resolve (s : string) : option (View * list (string * string)) :=
  resolve_in urlpatterns s.

(** A valid argument [v] for a converter. *)
Definition valid_arg (c : Converter) (v : string) : Prop :=
  v ≠ EmptyString ∧ all_chars (conv_char c) v = true.

(** What each route of the table matches. *)
Definition reaches (s : string) (v : View) (kw : list (string * string))
  : Prop :=
  match v with
  | store => s = EmptyString ∧ kw = []
  | product_info =>
      ∃ x, valid_arg slug_converter x
           ∧ s = "product/" +:+ x +:+ "/" ∧ kw = [("product_slug", x)]
  | list_category =>
      ∃ x, valid_arg slug_converter x
           ∧ s = "search/" +:+ x +:+ "/" ∧ kw = [("category_slug", x)]
  | list_brand =>
      ∃ x, valid_arg str_converter x
           ∧ s = "brand/" +:+ x +:+ "/" ∧ kw = [("brand_name", x)]
  | search_products => s = "search-products/" ∧ kw = []
  end.

End StoreUrls.

(** ** Test doubles for the helpers and a sample database *)

Module Doubles.

Definition set_restocked (b : bool) (it : RefundItem) : RefundItem :=
  {| refund_request := refund_request it; order_item := order_item it;
     quantity_to_refund := quantity_to_refund it;
     condition_acceptable := condition_acceptable it; restocked := b |}.

Definition with_reward_accounts (m : gmap string Z) (w : World) : World :=
  {| refunds := refunds w; items := items w; order_items := order_items w;
     products := products w; inventory := inventory w;
     reward_accounts := m; clock := clock w; messages := messages w |}.

(** Restocks the acceptable items of the request; raises for the requests
    listed in [broken]. *)
Definition restock (broken : list Z) : Helper unit := λ refund w,
  if bool_decide (id refund ∈ broken) then
    (refund, w, Raised (Exception "stock record missing"))
  else
    (refund,
     with_items
       ((λ it, if decide (refund_request it = id refund
                          ∧ condition_acceptable it = true)
               then set_restocked true it else it) <$> items w) w,
     Returned ()).

(** Takes one dollar of earned rewards back; raises for the requests
    listed in [broken]. *)
Definition process_rewards (broken : list Z) : Helper unit := λ refund w,
  if bool_decide (id refund ∈ broken) then
    (refund, w, Raised (Exception "no rewards account"))
  else
    match user (row refund) with
    | Some u =>
        (refund,
         with_reward_accounts
           (alter (λ b, b - 100) (username u) (reward_accounts w)) w,
         Returned ())
    | None => (refund, w, Returned ())
    end.

(** Credits the used rewards back, unless the request is listed in
    [already]. *)
Definition restore (already : list Z) : Helper bool := λ refund w,
  if bool_decide (id refund ∈ already) then (refund, w, Returned false)
  else
    match user (row refund) with
    | Some u =>
        (refund,
         with_reward_accounts
           (alter (λ b, b + rewards_used (row refund)) (username u)
                  (reward_accounts w)) w,
         Returned true)
    | None => (refund, w, Returned false)
    end.

(** A restock helper whose every call fails. *)
Definition restock_down : Helper unit := λ refund w,
  (refund, w, Raised (Exception "stock service down")).

Definition request (s : Status) (u : option string) (used : Z) : RefundRow :=
  {| status := s; user := (λ n, {| username := n |}) <$> u;
     rewards_used := used; product_received_at := None;
     refund_completed_at := None; rejection_reason := EmptyString;
     admin_notes := EmptyString |}.

Definition item (req : Z) (oi : option Z) : RefundItem :=
  {| refund_request := req; order_item := oi; quantity_to_refund := 1;
     condition_acceptable := false; restocked := false |}.

Definition r1 : RefundRequest :=
  {| id := 1; row := request PENDING_RETURN (Some "alice") 500 |}.
Definition r2 : RefundRequest :=
  {| id := 2; row := request PENDING_RETURN None 0 |}.
Definition r3 : RefundRequest :=
  {| id := 3; row := request PROCESSING_REFUND (Some "bob") 700 |}.
Definition r4 : RefundRequest :=
  {| id := 4; row := request PROCESSING_REFUND None 300 |}.
Definition r5 : RefundRequest :=
  {| id := 5; row := request COMPLETED (Some "carol") 0 |}.

Definition db : World :=
  {| refunds :=
       <[1 := row r1]> (<[2 := row r2]> (<[3 := row r3]>
       (<[4 := row r4]> (<[5 := row r5]> ∅))));
     items :=
       <[10 := item 1 (Some 100)]>
       (<[11 := item 1 (Some 101)]>
       (<[12 := item 2 (Some 102)]>
       (<[13 := item 3 None]> ∅)));
     order_items :=
       <[100 := {| product := Some 7 |}]>
       (<[101 := {| product := None |}]>
       (<[102 := {| product := Some 8 |}]> ∅));
     products := <[7 := {| title := "Kettle" |}]> ∅;
     inventory := <[7 := 3]> ∅;
     reward_accounts :=
       <["alice" := 1000]> (<["bob" := 200]> (<["carol" := 0]> ∅));
     clock := 1700000000;
     messages := [] |}.

End Doubles.

(** ** Properties *)

Import RefundRequestAdmin.

(** *** Formatting, on examples *)

Example fmt_money_1200 : fmt_money 1200 = "12.00".
Proof. vm_compute. reflexivity. Qed.

Example fmt_money_505 : fmt_money 505 = "5.05".
Proof. vm_compute. reflexivity. Qed.

Example fmt_int_2 : fmt_int 2 = "2".
Proof. vm_compute. reflexivity. Qed.

(** *** The loops *)

Section Loops.

Context (restock process : Helper unit).

Lemma fetch_elem (qs : QuerySet) (w : World) (x : RefundRequest) :
  x ∈ fetch qs w ↔ id x ∈ qs ∧ refunds w !! id x = Some (row x).
Proof.
  unfold fetch. rewrite list_elem_of_omap. split.
  - intros (i & Hi & Hx). destruct (refunds w !! i) as [r|] eqn:E; [|done].
    simpl in Hx. injection Hx as <-. simpl. by rewrite E.
  - intros [Hi Hx]. exists (id x). split; [done|]. rewrite Hx. by destruct x.
Qed.

Lemma filter_status_elem (s : Status) (qs : QuerySet) (w : World)
    (x : RefundRequest) :
  x ∈ filter_status s qs w ↔
  id x ∈ qs ∧ refunds w !! id x = Some (row x) ∧ status (row x) = s.
Proof.
  unfold filter_status. rewrite list_elem_of_filter, fetch_elem. tauto.
Qed.

Lemma mark_loop_split (st : World * Z) (l1 l2 : list RefundRequest)
    (x : RefundRequest) :
  mark_loop restock st (l1 ++ x :: l2)
  = mark_loop restock (mark_body restock (mark_loop restock st l1) x) l2.
Proof. unfold mark_loop. by rewrite foldl_app. Qed.

Lemma complete_loop_split (st : World * Z) (l1 l2 : list RefundRequest)
    (x : RefundRequest) :
  complete_loop process st (l1 ++ x :: l2)
  = complete_loop process
      (complete_body process (complete_loop process st l1) x) l2.
Proof. unfold complete_loop. by rewrite foldl_app. Qed.

Lemma mark_body_count (x : RefundRequest) (w : World) (n : Z) :
  (mark_body restock (w, n) x).2 = n + 1.
Proof.
  unfold mark_body. destruct (mark_received x w) as [x1 w1].
  by destruct (restock x1 w1) as [[x2 w2] res].
Qed.

Lemma mark_loop_count (l : list RefundRequest) (w : World) (n : Z) :
  (mark_loop restock (w, n) l).2 = n + Z.of_nat (length l).
Proof.
  unfold mark_loop. revert w n.
  induction l as [|x l IH]; intros w n; cbn [foldl length]; [simpl; lia|].
  pose proof (mark_body_count x w n) as Hn.
  destruct (mark_body restock (w, n) x) as [w' n']. simpl in Hn. subst n'.
  rewrite IH. lia.
Qed.

Lemma complete_body_count (x : RefundRequest) (w : World) (n : Z) :
  n ≤ (complete_body process (w, n) x).2 ≤ n + 1.
Proof.
  unfold complete_body, complete_finish. destruct (has_user x); simpl; [|lia].
  destruct (process x w) as [[x1 w1] [[]|e]]; simpl; lia.
Qed.

Lemma complete_loop_count (l : list RefundRequest) (w : World) (n : Z) :
  n ≤ (complete_loop process (w, n) l).2 ≤ n + Z.of_nat (length l).
Proof.
  unfold complete_loop. revert w n.
  induction l as [|x l IH]; intros w n; cbn [foldl length]; [simpl; lia|].
  pose proof (complete_body_count x w n) as Hn.
  destruct (complete_body process (w, n) x) as [w' n']. simpl in Hn.
  specialize (IH w' n'). lia.
Qed.

End Loops.

(** *** Writes of one turn *)

Lemma items_of_lookup (i k : Z) (w : World) (it : RefundItem) :
  items_of i w !! k = Some it ↔ items w !! k = Some it ∧ refund_request it = i.
Proof. unfold items_of. rewrite map_lookup_filter_Some. simpl. tauto. Qed.

Lemma items_of_update_same (x : RefundRequest) (w : World) :
  items_of (id x) (update_items_acceptable x w)
  = set_condition_acceptable true <$> items_of (id x) w.
Proof.
  apply map_eq. intros k. apply option_eq. intros it.
  rewrite items_of_lookup, lookup_fmap, fmap_Some. simpl.
  rewrite lookup_fmap, fmap_Some. split.
  - intros [(it0 & Hk & ->) Hreq]. exists it0.
    destruct (decide (refund_request it0 = id x)) as [Heq|Hne].
    + split; [|done]. by apply items_of_lookup.
    + done.
  - intros (it0 & Hk & ->). apply items_of_lookup in Hk as [Hk Hreq].
    split; [|done]. exists it0. split; [done|].
    by rewrite decide_True.
Qed.

Lemma items_of_update_other (x : RefundRequest) (w : World) (i : Z) :
  i ≠ id x → items_of i (update_items_acceptable x w) = items_of i w.
Proof.
  intros Hne. apply map_eq. intros k. apply option_eq. intros it.
  rewrite !items_of_lookup. simpl. rewrite lookup_fmap, fmap_Some. split.
  - intros [(it0 & Hk & ->) Hreq].
    destruct (decide (refund_request it0 = id x)) as [Heq|Hne'].
    + simpl in Hreq. congruence.
    + done.
  - intros [Hk Hreq]. split; [|done]. exists it. split; [done|].
    rewrite decide_False; [done|congruence].
Qed.

Lemma selected_status (s : Status) (qs : QuerySet) (w : World)
    (l1 l2 : list RefundRequest) (x : RefundRequest) :
  filter_status s qs w = l1 ++ x :: l2 →
  id x ∈ qs ∧ status (row x) = s.
Proof.
  intros Hsel.
  assert (Hin : x ∈ filter_status s qs w).
  { rewrite Hsel. apply elem_of_app. right. by left. }
  by apply filter_status_elem in Hin as (? & _ & ?).
Qed.

Lemma mark_received_items (x : RefundRequest) (w : World) :
  items_of (id x) (mark_received x w).2
  = set_condition_acceptable true <$> items_of (id x) w.
Proof.
  unfold mark_received. cbn [snd].
  set (x1 := assign _ (assign _ x)). change (id x) with (id x1).
  by rewrite items_of_update_same.
Qed.

Lemma mark_received_acceptable (x : RefundRequest) (w : World) (k : Z)
    (it : RefundItem) :
  items_of (id x) (mark_received x w).2 !! k = Some it →
  condition_acceptable it = true.
Proof.
  rewrite mark_received_items, lookup_fmap, fmap_Some.
  by intros (it0 & _ & ->).
Qed.

Lemma mark_action_split (restock : Helper unit) (qs : QuerySet) (w : World)
    (l1 l2 : list RefundRequest) (x : RefundRequest) (w1 : World) (n1 : Z) :
  filter_status PENDING_RETURN qs w = l1 ++ x :: l2 →
  mark_loop restock (w, 0) l1 = (w1, n1) →
  mark_product_received restock qs w
  = let '(w5, n) := mark_loop restock (mark_body restock (w1, n1) x) l2 in
    message_user SUCCESS (mark_summary n) w5.
Proof.
  intros Hsel Hl1. unfold mark_product_received.
  by rewrite Hsel, mark_loop_split, Hl1.
Qed.

Lemma mark_summary_last (restock : Helper unit) (qs : QuerySet) (w : World) :
  last (messages (mark_product_received restock qs w))
  = Some {| level := SUCCESS;
            text := mark_summary
              (Z.of_nat (length (filter_status PENDING_RETURN qs w))) |}.
Proof.
  unfold mark_product_received.
  pose proof (mark_loop_count restock (filter_status PENDING_RETURN qs w) w 0)
    as Hcount.
  destruct (mark_loop restock (w, 0) (filter_status PENDING_RETURN qs w))
    as [w5 n]. simpl in *.
  rewrite last_snoc. do 3 f_equal. lia.
Qed.

(** *** RefundItemAdmin.product_name *)

(** C7. The product column always yields a string: the title of the product
    when the chain [order_item.product.title] is intact, and otherwise, when
    the dereference raises, the text "Error: " followed by the exception. *)
Theorem product_name_total (obj : RefundItem) (w : World) :
  (∃ k1 oi k2 p,
      order_item obj = Some k1 ∧ order_items w !! k1 = Some oi
      ∧ product oi = Some k2 ∧ products w !! k2 = Some p
      ∧ RefundItemAdmin.deref_title obj w = Returned (title p)
      ∧ RefundItemAdmin.product_name obj w = title p)
  ∨ (∃ e,
      RefundItemAdmin.deref_title obj w = Raised e
      ∧ RefundItemAdmin.product_name obj w = "Error: " +:+ str e).
Proof.
  unfold RefundItemAdmin.product_name, RefundItemAdmin.deref_title,
    RefundItemAdmin.attr_order_item.
  destruct (order_item obj) as [k1|] eqn:E1; simpl.
  - destruct (order_items w !! k1) as [oi|] eqn:E2; simpl.
    + destruct (product oi) as [k2|] eqn:E3; simpl.
      * destruct (products w !! k2) as [p|] eqn:E4; simpl.
        -- left. by exists k1, oi, k2, p.
        -- right. eauto.
      * right. eauto.
    + right. eauto.
  - right. eauto.
Qed.

(** *** mark_product_received *)

(** C3. Let [refund] come up in the loop of the action, after the turns of
    [l1] have left the world [w1].  It was selected with status
    PENDING_RETURN; its turn saves it with status PRODUCT_RECEIVED and
    [product_received_at] read from the clock, sets [condition_acceptable]
    on each of its items and on no other column, and only then calls the
    restock helper, on the world so updated; the action goes on from what
    the helper leaves. *)
Theorem mark_product_received_turn (restock : Helper unit) (qs : QuerySet)
    (w : World) (l1 l2 : list RefundRequest) (refund : RefundRequest)
    (w1 : World) (n1 : Z) :
  filter_status PENDING_RETURN qs w = l1 ++ refund :: l2 →
  mark_loop restock (w, 0) l1 = (w1, n1) →
  let refund1 :=
    assign (set_product_received_at (timezone_now w1))
           (assign (set_status PRODUCT_RECEIVED) refund) in
  let w2 := update_items_acceptable refund1 (save refund1 w1) in
  (id refund ∈ qs ∧ status (row refund) = PENDING_RETURN)
  ∧ refunds w2 !! id refund = Some (row refund1)
  ∧ status (row refund1) = PRODUCT_RECEIVED
  ∧ product_received_at (row refund1) = Some (clock w1)
  ∧ items_of (id refund) w2
    = set_condition_acceptable true <$> items_of (id refund) w1
  ∧ size (items_of (id refund) w2) = size (items_of (id refund) w1)
  ∧ (∀ k it, items_of (id refund) w2 !! k = Some it →
             condition_acceptable it = true)
  ∧ mark_product_received restock qs w
    = let '(refund2, w3, res) := restock refund1 w2 in
      let w4 :=
        match res with
        | Returned _ => w3
        | Raised e => message_user ERROR (restock_error refund2 e) w3
        end in
      let '(w5, n) := mark_loop restock (w4, n1 + 1) l2 in
      message_user SUCCESS (mark_summary n) w5.
Proof.
  intros Hsel Hl1 refund1 w2.
  pose proof (mark_received_items refund w1) as Hitems.
  pose proof (mark_received_acceptable refund w1) as Hacc.
  change (mark_received refund w1).2 with w2 in Hitems, Hacc.
  split; [by eapply selected_status|]. split.
  { subst w2. simpl. apply lookup_insert_eq. }
  split; [done|]. split; [done|]. split; [done|]. split.
  { rewrite Hitems. apply map_size_fmap. }
  split; [done|].
  rewrite (mark_action_split restock qs w l1 l2 refund w1 n1 Hsel Hl1).
  unfold mark_body, mark_received. fold refund1. fold w2.
  by destruct (restock refund1 w2) as [[refund2 w3] res].
Qed.

Section MarkFrame.

Context (restock : Helper unit) (Hframe : restock_frame restock).

Lemma mark_body_refunds (x : RefundRequest) (w : World) (n : Z) :
  refunds (mark_body restock (w, n) x).1
  = <[id x := set_product_received_at (clock w)
                (set_status PRODUCT_RECEIVED (row x))]> (refunds w).
Proof.
  unfold mark_body, mark_received.
  match goal with |- context [restock ?a ?b] =>
    destruct (Hframe a b) as [Hr _]; destruct (restock a b) as [[x2 w3] res]
  end.
  simpl in Hr. by destruct res; simpl; rewrite Hr.
Qed.

Lemma mark_body_items (x : RefundRequest) (w : World) (n : Z) (j : Z) :
  j ≠ id x → items_of j (mark_body restock (w, n) x).1 = items_of j w.
Proof.
  intros Hne. unfold mark_body, mark_received.
  match goal with |- context [restock ?a ?b] =>
    destruct (Hframe a b) as [_ Hi]; destruct (restock a b) as [[x2 w3] res]
  end.
  simpl in Hi. specialize (Hi j Hne).
  assert (items_of j w3 = items_of j w) as <-.
  { rewrite Hi. by rewrite items_of_update_other. }
  by destruct res.
Qed.

Lemma mark_loop_untouched (l : list RefundRequest) (st : World * Z) (i : Z) :
  i ∉ id <$> l →
  refunds (mark_loop restock st l).1 !! i = refunds st.1 !! i
  ∧ items_of i (mark_loop restock st l).1 = items_of i st.1.
Proof.
  unfold mark_loop. revert st.
  induction l as [|x l IH]; intros [w n] Hi; cbn [foldl]; [done|].
  rewrite fmap_cons, not_elem_of_cons in Hi. destruct Hi as [Hne Hi].
  destruct (IH (mark_body restock (w, n) x) Hi) as [-> ->].
  rewrite mark_body_refunds, mark_body_items by done.
  by rewrite lookup_insert_ne.
Qed.

Lemma mark_loop_received (l : list RefundRequest) (st : World * Z)
    (i : Z) (r : RefundRow) :
  (∀ x, x ∈ l → id x = i → row x = r) →
  i ∈ id <$> l →
  ∃ t, refunds (mark_loop restock st l).1 !! i
       = Some (set_product_received_at t (set_status PRODUCT_RECEIVED r)).
Proof.
  unfold mark_loop. revert st.
  induction l as [|x l IH]; intros [w n] Hrow Hi; cbn [foldl].
  { by apply elem_of_nil in Hi. }
  destruct (decide (i ∈ id <$> l)) as [Hin|Hnin].
  - apply IH; [|done]. intros y Hy. apply Hrow. by right.
  - rewrite fmap_cons, elem_of_cons in Hi. destruct Hi as [->|Hi]; [|done].
    destruct (mark_loop_untouched l (mark_body restock (w, n) x) (id x) Hnin)
      as [Hr _].
    unfold mark_loop in Hr. rewrite Hr, mark_body_refunds, lookup_insert_eq.
    exists (clock w). by rewrite (Hrow x) by (done || by left).
Qed.

End MarkFrame.

Lemma filter_status_length (s : Status) (qs : QuerySet) (w : World) :
  length (filter_status s qs w)
  = length (filter (λ i, status <$> refunds w !! i = Some s) qs).
Proof.
  unfold filter_status, fetch.
  induction qs as [|i qs IH]; [done|].
  rewrite (filter_cons (λ i, status <$> refunds w !! i = Some s)).
  cbn [omap list_omap].
  destruct (refunds w !! i) as [r|]; cbn [fmap option_fmap option_map].
  - rewrite filter_cons. cbn [row].
    destruct (decide (status r = s)) as [Hs|Hs].
    + rewrite decide_True by congruence. cbn [length]. by rewrite IH.
    + rewrite decide_False by congruence. done.
  - rewrite decide_False by done. done.
Qed.

(** C4. With a restock helper that keeps to the request it is called on,
    the action leaves a request that is not PENDING_RETURN, and one that is
    not selected, as it was (row and items); each selected PENDING_RETURN
    request ends as PRODUCT_RECEIVED; and the closing message counts the
    selected PENDING_RETURN requests. *)
Theorem mark_product_received_frame (restock : Helper unit) (qs : QuerySet)
    (w : World) :
  restock_frame restock →
  let w' := mark_product_received restock qs w in
  (∀ i r, refunds w !! i = Some r → status r ≠ PENDING_RETURN →
          refunds w' !! i = Some r ∧ items_of i w' = items_of i w)
  ∧ (∀ i, i ∉ qs →
          refunds w' !! i = refunds w !! i ∧ items_of i w' = items_of i w)
  ∧ (∀ i r, i ∈ qs → refunds w !! i = Some r → status r = PENDING_RETURN →
            ∃ t, refunds w' !! i
                 = Some (set_product_received_at t
                           (set_status PRODUCT_RECEIVED r)))
  ∧ last (messages w')
    = Some {| level := SUCCESS;
              text := mark_summary
                (Z.of_nat (length (filter
                   (λ i, status <$> refunds w !! i = Some PENDING_RETURN)
                   qs))) |}.
Proof.
  intros Hframe w'. subst w'. unfold mark_product_received.
  pose proof (mark_loop_count restock (filter_status PENDING_RETURN qs w) w 0)
    as Hcount.
  pose proof (mark_loop_untouched restock Hframe
                (filter_status PENDING_RETURN qs w) (w, 0)) as Hout.
  pose proof (mark_loop_received restock Hframe
                (filter_status PENDING_RETURN qs w) (w, 0)) as Hin.
  destruct (mark_loop restock (w, 0) (filter_status PENDING_RETURN qs w))
    as [w5 n]. simpl in *.
  assert (Hnot : ∀ i, (∀ x, x ∈ filter_status PENDING_RETURN qs w → id x ≠ i) →
                      i ∉ id <$> filter_status PENDING_RETURN qs w).
  { intros i Hi. rewrite list_elem_of_fmap. intros (x & -> & Hx).
    by apply (Hi x). }
  split; [|split; [|split]].
  - intros i r Hr Hst.
    destruct (Hout i) as [Hr' Hi'].
    + apply Hnot. intros x Hx <-.
      apply filter_status_elem in Hx as (_ & Hx & Hs). congruence.
    + unfold items_of in *. simpl. by rewrite Hr', Hi'.
  - intros i Hi.
    destruct (Hout i) as [Hr' Hi'].
    + apply Hnot. intros x Hx <-.
      by apply filter_status_elem in Hx as (Hx & _).
    + unfold items_of in *. simpl. by rewrite Hr', Hi'.
  - intros i r Hi Hr Hst.
    destruct (Hin i r) as [t Ht].
    + intros x Hx <-. apply filter_status_elem in Hx as (_ & Hx & _).
      congruence.
    + rewrite list_elem_of_fmap. exists {| id := i; row := r |}.
      split; [done|]. by apply filter_status_elem.
    + by exists t.
  - simpl. rewrite last_snoc. do 3 f_equal.
    rewrite Hcount, filter_status_length. lia.
Qed.

(** C8. Let the restock helper raise in the turn of [refund].  By then the
    request is saved as PRODUCT_RECEIVED and its items are acceptable; the
    turn adds one error message to what the helper left and counts the
    request; the loop goes on, and the closing success message counts every
    selected PENDING_RETURN request, this one included. *)
Theorem mark_product_received_restock_raises (restock : Helper unit)
    (qs : QuerySet) (w : World) (l1 l2 : list RefundRequest)
    (refund : RefundRequest) (w1 : World) (n1 : Z)
    (refund2 : RefundRequest) (w3 : World) (e : exn) :
  filter_status PENDING_RETURN qs w = l1 ++ refund :: l2 →
  mark_loop restock (w, 0) l1 = (w1, n1) →
  let refund1 :=
    assign (set_product_received_at (timezone_now w1))
           (assign (set_status PRODUCT_RECEIVED) refund) in
  let w2 := update_items_acceptable refund1 (save refund1 w1) in
  restock refund1 w2 = (refund2, w3, Raised e) →
  let w4 := message_user ERROR (restock_error refund2 e) w3 in
  refunds w2 !! id refund = Some (row refund1)
  ∧ status (row refund1) = PRODUCT_RECEIVED
  ∧ (∀ k it, items_of (id refund) w2 !! k = Some it →
             condition_acceptable it = true)
  ∧ mark_body restock (w1, n1) refund = (w4, n1 + 1)
  ∧ database w4 = database w3
  ∧ messages w4
    = messages w3 ++ [{| level := ERROR; text := restock_error refund2 e |}]
  ∧ mark_product_received restock qs w
    = (let '(w5, n) := mark_loop restock (w4, n1 + 1) l2 in
       message_user SUCCESS (mark_summary n) w5)
  ∧ last (messages (mark_product_received restock qs w))
    = Some {| level := SUCCESS;
              text := mark_summary
                (Z.of_nat (length (filter_status PENDING_RETURN qs w))) |}.
Proof.
  intros Hsel Hl1 refund1 w2 Hraise w4.
  pose proof (mark_received_acceptable refund w1) as Hacc.
  change (mark_received refund w1).2 with w2 in Hacc.
  assert (Hbody : mark_body restock (w1, n1) refund = (w4, n1 + 1)).
  { unfold mark_body, mark_received. fold refund1. fold w2.
    by rewrite Hraise. }
  split.
  { subst w2. simpl. apply lookup_insert_eq. }
  split; [done|]. split; [done|]. split; [done|].
  split; [done|]. split; [done|]. split.
  { by rewrite (mark_action_split restock qs w l1 l2 refund w1 n1 Hsel Hl1),
      Hbody. }
  apply mark_summary_last.
Qed.

(** *** complete_refund *)

(** C2. Let the rewards helper raise in the turn of [refund], a request of a
    registered user.  The turn writes nothing: it adds one error message to
    what the helper left and does not count the request, so the row is as
    the helper left it (status and [refund_completed_at] included); the loop
    goes on with the remaining requests, and the count it reports is below
    the number of selected PROCESSING_REFUND requests. *)
Theorem complete_refund_helper_raises (process : Helper unit) (qs : QuerySet)
    (w : World) (l1 l2 : list RefundRequest) (refund : RefundRequest)
    (w1 : World) (n1 : Z) (u : User)
    (refund' : RefundRequest) (w2 : World) (e : exn) :
  filter_status PROCESSING_REFUND qs w = l1 ++ refund :: l2 →
  complete_loop process (w, 0) l1 = (w1, n1) →
  user (row refund) = Some u →
  process refund w1 = (refund', w2, Raised e) →
  let w3 := message_user ERROR (rewards_error refund' e) w2 in
  (id refund ∈ qs ∧ status (row refund) = PROCESSING_REFUND)
  ∧ complete_body process (w1, n1) refund = (w3, n1)
  ∧ database w3 = database w2
  ∧ (refunds w2 = refunds w1 →
     refunds w3 !! id refund = refunds w1 !! id refund)
  ∧ messages w3
    = messages w2 ++ [{| level := ERROR; text := rewards_error refund' e |}]
  ∧ complete_refund process qs w
    = (let '(w4, n) := complete_loop process (w3, n1) l2 in
       message_user SUCCESS (complete_summary n) w4)
  ∧ (complete_loop process (w3, n1) l2).2
    < Z.of_nat (length (filter_status PROCESSING_REFUND qs w)).
Proof.
  intros Hsel Hl1 Hu Hraise w3.
  destruct (selected_status _ _ _ _ _ _ Hsel) as [Hqs Hst].
  assert (Hbody : complete_body process (w1, n1) refund = (w3, n1)).
  { unfold complete_body, has_user. rewrite Hu.
    rewrite bool_decide_eq_true_2 by eauto. by rewrite Hraise. }
  split; [done|]. split; [done|]. split; [done|]. split.
  { intros Hr. simpl. by rewrite Hr. }
  split; [done|]. split.
  { unfold complete_refund. by rewrite Hsel, complete_loop_split, Hl1, Hbody. }
  pose proof (complete_loop_count process l1 w 0) as H1.
  pose proof (complete_loop_count process l2 w3 n1) as H2.
  rewrite Hl1 in H1. simpl in H1.
  rewrite Hsel, length_app. simpl. lia.
Qed.

(** C5. Let [refund], a guest request, come up in the loop.  Its turn is the
    same whatever the rewards helper is, so the helper is not called: the
    request is saved as COMPLETED with [refund_completed_at] read from the
    clock, nothing else in the world changes, the request is counted and the
    loop goes on. *)
Theorem complete_refund_guest (process : Helper unit) (qs : QuerySet)
    (w : World) (l1 l2 : list RefundRequest) (refund : RefundRequest)
    (w1 : World) (n1 : Z) :
  filter_status PROCESSING_REFUND qs w = l1 ++ refund :: l2 →
  complete_loop process (w, 0) l1 = (w1, n1) →
  user (row refund) = None →
  let refund1 :=
    assign (set_refund_completed_at (timezone_now w1))
           (assign (set_status COMPLETED) refund) in
  let w2 := save refund1 w1 in
  (id refund ∈ qs ∧ status (row refund) = PROCESSING_REFUND)
  ∧ (∀ other : Helper unit,
       complete_body other (w1, n1) refund = (w2, n1 + 1))
  ∧ refunds w2 !! id refund = Some (row refund1)
  ∧ status (row refund1) = COMPLETED
  ∧ refund_completed_at (row refund1) = Some (clock w1)
  ∧ (∀ i, i ≠ id refund → refunds w2 !! i = refunds w1 !! i)
  ∧ items w2 = items w1
  ∧ inventory w2 = inventory w1
  ∧ reward_accounts w2 = reward_accounts w1
  ∧ messages w2 = messages w1
  ∧ complete_refund process qs w
    = (let '(w3, n) := complete_loop process (w2, n1 + 1) l2 in
       message_user SUCCESS (complete_summary n) w3).
Proof.
  intros Hsel Hl1 Hu refund1 w2.
  destruct (selected_status _ _ _ _ _ _ Hsel) as [Hqs Hst].
  assert (Hbody : ∀ other : Helper unit,
             complete_body other (w1, n1) refund = (w2, n1 + 1)).
  { intros other. unfold complete_body, has_user. rewrite Hu.
    rewrite bool_decide_eq_false_2; [done|]. by intros [? ?]. }
  split; [done|]. split; [done|]. split.
  { subst w2. simpl. apply lookup_insert_eq. }
  split; [done|]. split; [done|]. split.
  { intros i Hi. subst w2. simpl. by rewrite lookup_insert_ne. }
  split; [done|]. split; [done|]. split; [done|]. split; [done|].
  unfold complete_refund. by rewrite Hsel, complete_loop_split, Hl1, Hbody.
Qed.

(** *** reject_refund *)

(** C6. The action sets the status of a selected request to REJECTED when
    its status is neither COMPLETED nor REJECTED: the row it leaves has
    status REJECTED and every other column (the rejection reason among
    them) as it was; it leaves a COMPLETED or
    REJECTED request and a request that is not selected unchanged, creates
    no row, touches neither items, stock nor loyalty balances, and adds one
    warning message. *)
Theorem reject_refund_effect (qs : QuerySet) (w : World) :
  let w' := reject_refund qs w in
  (∀ i r, i ∈ qs → refunds w !! i = Some r →
          status r ∉ [COMPLETED; REJECTED] →
          refunds w' !! i
          = Some {| status := REJECTED; user := user r;
                    rewards_used := rewards_used r;
                    product_received_at := product_received_at r;
                    refund_completed_at := refund_completed_at r;
                    rejection_reason := rejection_reason r;
                    admin_notes := admin_notes r |})
  ∧ (∀ i r, refunds w !! i = Some r → status r ∈ [COMPLETED; REJECTED] →
            refunds w' !! i = Some r)
  ∧ (∀ i, i ∉ qs → refunds w' !! i = refunds w !! i)
  ∧ (∀ i, refunds w !! i = None → refunds w' !! i = None)
  ∧ items w' = items w
  ∧ order_items w' = order_items w
  ∧ products w' = products w
  ∧ inventory w' = inventory w
  ∧ reward_accounts w' = reward_accounts w
  ∧ clock w' = clock w
  ∧ ∃ n, messages w'
         = messages w ++ [{| level := WARNING; text := reject_summary n |}].
Proof.
  intros w'. subst w'. unfold reject_refund, update_rejected. simpl.
  split; [|split; [|split; [|split]]].
  - intros i r Hi Hr Hst. rewrite map_lookup_imap, Hr. simpl.
    unfold rejectable.
    rewrite bool_decide_eq_true_2, (bool_decide_eq_false_2 _ Hst) by done.
    done.
  - intros i r Hr Hst. rewrite map_lookup_imap, Hr. simpl.
    unfold rejectable. rewrite (bool_decide_eq_true_2 _ Hst).
    by rewrite andb_false_r.
  - intros i Hi. rewrite map_lookup_imap.
    destruct (refunds w !! i) as [r|]; [|done]. simpl.
    unfold rejectable. by rewrite (bool_decide_eq_false_2 _ Hi).
  - intros i Hr. by rewrite map_lookup_imap, Hr.
  - repeat (split; [done|]). eauto.
Qed.

(** *** restore_rewards_goodwill *)

Lemma has_user_true (r : RefundRequest) :
  has_user r = true → is_Some (user (row r)).
Proof. unfold has_user. apply bool_decide_eq_true_1. Qed.

Lemma has_user_false (r : RefundRequest) :
  has_user r = false → user (row r) = None.
Proof.
  unfold has_user. intros H. apply bool_decide_eq_false_1 in H.
  destruct (user (row r)); [|done]. destruct H. eauto.
Qed.

Section Restore.

Context (restore : Helper bool).

Lemma restore_loop_counts (todo seen : list RefundRequest) (c : Counters)
    (w : World) :
  match restore_loop restore todo seen c w with
  | (_, Returned (cache, c')) =>
      counted c' = counted c + Z.of_nat (length todo)
      ∧ guest_count c'
        = guest_count c
          + Z.of_nat (length (filter (λ r, user (row r) = None) todo))
      ∧ no_rewards_count c'
        = no_rewards_count c
          + Z.of_nat (length (filter
              (λ r, is_Some (user (row r)) ∧ rewards_used (row r) ≤ 0) todo))
      ∧ restored_count c' + already_restored_count c'
        = restored_count c + already_restored_count c
          + Z.of_nat (length (filter eligible todo))
      ∧ restored_count c ≤ restored_count c'
      ∧ already_restored_count c ≤ already_restored_count c'
  | (w', Raised e) =>
      ∃ refund w0 refund',
        refund ∈ todo ∧ eligible refund
        ∧ restore refund w0 = (refund', w', Raised e)
  end.
Proof.
  revert seen c w. induction todo as [|x todo IH]; intros seen c w.
  { simpl. repeat split; lia. }
  cbn [restore_loop]. rewrite !filter_cons.
  destruct (has_user x) eqn:Hu; cbn [negb].
  - apply has_user_true in Hu as Hsome.
    rewrite (decide_False (P := user (row x) = None))
      by (intros Hn; rewrite Hn in Hsome; by destruct Hsome).
    destruct (decide (rewards_used (row x) ≤ 0)) as [Hle|Hgt].
    + specialize (IH (seen ++ [x]) (incr_no_rewards c) w).
      destruct (restore_loop restore todo (seen ++ [x]) (incr_no_rewards c) w)
        as [w' [[cache c']|e]].
      * rewrite decide_True by done.
        rewrite decide_False by (intros [_ ?]; lia).
        unfold counted in *. simpl in *. lia.
      * destruct IH as (r & w0 & r' & Hr & He & Hcall).
        exists r, w0, r'. split; [by right|done].
    + destruct (restore x w) as [[x' w1] [success|e]] eqn:Hcall.
      * rewrite decide_False by (intros [_ ?]; lia).
        rewrite decide_True by (split; [done|lia]).
        destruct success.
        -- specialize (IH (seen ++ [x']) (incr_restored c) w1).
           destruct (restore_loop restore todo (seen ++ [x'])
                       (incr_restored c) w1) as [w' [[cache c']|e]].
           ++ unfold counted in *. simpl in *. lia.
           ++ destruct IH as (r & w0 & r' & Hr & He & Hcall').
              exists r, w0, r'. split; [by right|done].
        -- specialize (IH (seen ++ [x']) (incr_already_restored c) w1).
           destruct (restore_loop restore todo (seen ++ [x'])
                       (incr_already_restored c) w1) as [w' [[cache c']|e]].
           ++ unfold counted in *. simpl in *. lia.
           ++ destruct IH as (r & w0 & r' & Hr & He & Hcall').
              exists r, w0, r'. split; [by right|done].
      * exists x, w, x'. split; [by left|]. split; [|done].
        split; [done|lia].
  - apply has_user_false in Hu as Hnone.
    specialize (IH (seen ++ [x]) (incr_guest c) w).
    destruct (restore_loop restore todo (seen ++ [x]) (incr_guest c) w)
      as [w' [[cache c']|e]].
    + rewrite decide_True by done.
      rewrite decide_False
        by (intros [Hs _]; rewrite Hnone in Hs; by destruct Hs).
      rewrite decide_False by (intros [Hs _]; congruence).
      unfold counted in *. simpl in *. lia.
    + destruct IH as (r & w0 & r' & Hr & He & Hcall).
      exists r, w0, r'. split; [by right|done].
Qed.

Lemma run_helper_cons (x : RefundRequest) (calls : list RefundRequest)
    (w : World) :
  run_helper restore (x :: calls) w
  = run_helper restore calls (restore x w).1.2.
Proof. done. Qed.

Lemma restore_loop_world (todo seen : list RefundRequest) (c : Counters)
    (w : World) :
  match restore_loop restore todo seen c w with
  | (w', Returned _) => w' = run_helper restore (filter eligible todo) w
  | (w', Raised e) =>
      ∃ calls, calls `prefix_of` filter eligible todo
               ∧ w' = run_helper restore calls w
  end.
Proof.
  revert seen c w. induction todo as [|x todo IH]; intros seen c w; [done|].
  cbn [restore_loop]. rewrite filter_cons.
  destruct (has_user x) eqn:Hu; cbn [negb].
  - destruct (decide (rewards_used (row x) ≤ 0)) as [Hle|Hgt].
    + rewrite decide_False by (intros [_ ?]; lia). apply IH.
    + rewrite decide_True by (split; [done|lia]).
      rewrite run_helper_cons.
      destruct (restore x w) as [[x' w1] [success|e]] eqn:Hcall; simpl.
      * assert (Hgo : ∀ c0,
                  match restore_loop restore todo (seen ++ [x']) c0 w1 with
                  | (w', Returned _) =>
                      w' = run_helper restore (filter eligible todo) w1
                  | (w', Raised e) =>
                      ∃ calls, calls `prefix_of` x :: filter eligible todo
                               ∧ w' = run_helper restore calls w
                  end).
        { intros c0. specialize (IH (seen ++ [x']) c0 w1).
          destruct (restore_loop restore todo (seen ++ [x']) c0 w1)
            as [w' [?|e]]; [done|].
          destruct IH as (calls & Hpre & ->). exists (x :: calls).
          split; [by apply prefix_cons|].
          by rewrite run_helper_cons, Hcall. }
        destruct success; apply Hgo.
      * exists [x]. split.
        -- by exists (filter eligible todo).
        -- by rewrite run_helper_cons, Hcall.
  - rewrite decide_False by (intros [? _]; congruence). apply IH.
Qed.

End Restore.

(** C9. When the loop of the action ends, its four counters add up to the
    number of selected requests, and each counts its own kind: the guest
    counter counts the requests without a user whatever their
    [rewards_used], the no-rewards counter the registered ones with nothing
    used, and the restored and already-restored counters share the others.
    The loop ends unless the helper raises on one of these others. *)
Theorem restore_counters_partition (restore : Helper bool) (qs : QuerySet)
    (w : World) :
  match restore_loop restore (fetch qs w) [] zero w with
  | (w', Returned (cache, c)) =>
      counted c = Z.of_nat (length (fetch qs w))
      ∧ guest_count c
        = Z.of_nat (length (filter (λ r, user (row r) = None) (fetch qs w)))
      ∧ no_rewards_count c
        = Z.of_nat (length (filter
            (λ r, is_Some (user (row r)) ∧ rewards_used (row r) ≤ 0)
            (fetch qs w)))
      ∧ restored_count c + already_restored_count c
        = Z.of_nat (length (filter eligible (fetch qs w)))
      ∧ 0 ≤ restored_count c
      ∧ 0 ≤ already_restored_count c
      ∧ restore_rewards_goodwill restore qs w
        = (restore_report c cache w', Returned ())
  | (w', Raised e) =>
      (∃ refund w0 refund',
          refund ∈ fetch qs w ∧ eligible refund
          ∧ restore refund w0 = (refund', w', Raised e))
      ∧ restore_rewards_goodwill restore qs w = (w', Raised e)
  end.
Proof.
  pose proof (restore_loop_counts restore (fetch qs w) [] zero w) as H.
  unfold restore_rewards_goodwill.
  destruct (restore_loop restore (fetch qs w) [] zero w)
    as [w' [[cache c]|e]]; [|done].
  unfold counted in *. simpl in *. repeat split; lia.
Qed.

(** C10. The action writes no table itself.  When it returns, its world is
    the one obtained by calling the helper on the selected requests of
    registered users with rewards used, in order, with one message added;
    when the helper raises, it is the world of the calls made so far.  The
    status of a request plays no part in which calls are made. *)
Theorem restore_writes_nothing (restore : Helper bool) (qs : QuerySet)
    (w : World) :
  match restore_rewards_goodwill restore qs w with
  | (w', Returned _) =>
      let w0 := run_helper restore (filter eligible (fetch qs w)) w in
      database w' = database w0
      ∧ ∃ m, messages w' = messages w0 ++ [m]
  | (w', Raised e) =>
      ∃ calls, calls `prefix_of` filter eligible (fetch qs w)
               ∧ w' = run_helper restore calls w
  end.
Proof.
  pose proof (restore_loop_world restore (fetch qs w) [] zero w) as H.
  unfold restore_rewards_goodwill.
  destruct (restore_loop restore (fetch qs w) [] zero w)
    as [w' [[cache c]|e]]; [|done].
  subst w'. unfold restore_report.
  destruct (decide (0 < restored_count c)); simpl; eauto.
Qed.

(** C1. On the sample database, with request 1 restored now and request 3
    restored earlier, the action reports twelve dollars for its one
    restored customer, the rewards used by both requests, while five
    dollars, those of request 1, were restored. *)
Theorem restore_total_counts_already_restored :
  let h := Doubles.restore [3] in
  fetch [1; 3] Doubles.db = [Doubles.r1; Doubles.r3]
  ∧ (h Doubles.r1 Doubles.db).2 = Returned true
  ∧ (∀ w, (h Doubles.r3 w).2 = Returned false)
  ∧ messages (restore_rewards_goodwill h [1; 3] Doubles.db).1
    = [{| level := SUCCESS;
          text := "Rewards restored as goodwill gesture: "
                  +:+ "1 customer(s) had $12.00 in rewards restored, "
                  +:+ "1 already had rewards restored" |}]
  ∧ fmt_money (rewards_used (row Doubles.r1)) = "5.00"
  ∧ reward_accounts (restore_rewards_goodwill h [1; 3] Doubles.db).1
    = <["alice" := 1500]> (reward_accounts Doubles.db).
Proof.
  split; [by vm_compute|]. split; [by vm_compute|]. split; [done|].
  split; [by vm_compute|]. split; [by vm_compute|].
  by vm_compute.
Qed.

(** *** The theorems on the sample database *)

Lemma restock_double_frame (broken : list Z) :
  restock_frame (Doubles.restock broken).
Proof.
  intros refund w. unfold Doubles.restock.
  destruct (bool_decide (id refund ∈ broken)); simpl; [done|].
  split; [done|]. intros j Hj.
  apply map_eq. intros k. apply option_eq. intros it.
  rewrite !items_of_lookup. simpl. rewrite lookup_fmap, fmap_Some. split.
  - intros [(it0 & Hk & ->) Hreq].
    destruct (decide (refund_request it0 = id refund
                      ∧ condition_acceptable it0 = true)) as [[Heq _]|Hne].
    + simpl in Hreq. congruence.
    + done.
  - intros [Hk Hreq]. split; [|done]. exists it. split; [done|].
    rewrite decide_False; [done|]. intros [? _]. congruence.
Qed.

(** Request 1, first of the two PENDING_RETURN requests of a selection of
    three. *)
Lemma mark_product_received_turn_witness :
  let restock := Doubles.restock [] in
  let refund1 :=
    assign (set_product_received_at 1700000000)
           (assign (set_status PRODUCT_RECEIVED) Doubles.r1) in
  let w2 := update_items_acceptable refund1 (save refund1 Doubles.db) in
  filter_status PENDING_RETURN [1; 2; 3] Doubles.db
    = [] ++ Doubles.r1 :: [Doubles.r2]
  ∧ mark_loop restock (Doubles.db, 0) [] = (Doubles.db, 0)
  ∧ refunds w2 !! 1 = Some (row refund1)
  ∧ size (items_of 1 w2) = size (items_of 1 Doubles.db)
  ∧ (∀ k it, items_of 1 w2 !! k = Some it → condition_acceptable it = true).
Proof.
  intros restock refund1 w2.
  assert (H1 : filter_status PENDING_RETURN [1; 2; 3] Doubles.db
               = [] ++ Doubles.r1 :: [Doubles.r2]) by (vm_compute; reflexivity).
  assert (H2 : mark_loop restock (Doubles.db, 0) [] = (Doubles.db, 0))
    by reflexivity.
  split; [exact H1|]. split; [exact H2|].
  destruct (mark_product_received_turn restock [1; 2; 3] Doubles.db
              [] [Doubles.r2] Doubles.r1 Doubles.db 0 H1 H2)
    as (_ & Hrow & _ & _ & _ & Hsize & Hacc & _).
  split; [exact Hrow|]. split; [exact Hsize|]. exact Hacc.
Defined.

(** Two PENDING_RETURN requests and one in PROCESSING_REFUND: the third is
    untouched and two are reported. *)
Lemma mark_product_received_frame_witness :
  let restock := Doubles.restock [2] in
  let w' := mark_product_received restock [1; 2; 3] Doubles.db in
  restock_frame restock
  ∧ refunds w' !! 3 = Some (row Doubles.r3)
  ∧ items_of 3 w' = items_of 3 Doubles.db
  ∧ last (messages w')
    = Some {| level := SUCCESS;
              text := "2 refund(s) marked as product received and items restocked." |}.
Proof.
  intros restock w'.
  assert (H1 : restock_frame restock) by apply restock_double_frame.
  split; [exact H1|].
  destruct (mark_product_received_frame restock [1; 2; 3] Doubles.db H1)
    as (Hother & _ & _ & Hlast).
  destruct (Hother 3 (row Doubles.r3)) as [Hrow Hitems];
    [reflexivity | discriminate |].
  split; [exact Hrow|]. split; [exact Hitems|]. exact Hlast.
Defined.

(** Request 2, whose restocking fails, after request 1. *)
Lemma mark_product_received_restock_raises_witness :
  let restock := Doubles.restock [2] in
  let e := Exception "stock record missing" in
  let w1 := (mark_loop restock (Doubles.db, 0) [Doubles.r1]).1 in
  let refund1 :=
    assign (set_product_received_at (timezone_now w1))
           (assign (set_status PRODUCT_RECEIVED) Doubles.r2) in
  let w2 := update_items_acceptable refund1 (save refund1 w1) in
  filter_status PENDING_RETURN [1; 2; 3] Doubles.db
    = [Doubles.r1] ++ Doubles.r2 :: []
  ∧ mark_loop restock (Doubles.db, 0) [Doubles.r1] = (w1, 1)
  ∧ restock refund1 w2 = (refund1, w2, Raised e)
  ∧ mark_body restock (w1, 1) Doubles.r2
    = (message_user ERROR (restock_error refund1 e) w2, 1 + 1)
  ∧ last (messages (mark_product_received restock [1; 2; 3] Doubles.db))
    = Some {| level := SUCCESS;
              text := "2 refund(s) marked as product received and items restocked." |}.
Proof.
  intros restock e w1 refund1 w2.
  assert (H1 : filter_status PENDING_RETURN [1; 2; 3] Doubles.db
               = [Doubles.r1] ++ Doubles.r2 :: []) by (vm_compute; reflexivity).
  assert (H2 : mark_loop restock (Doubles.db, 0) [Doubles.r1] = (w1, 1))
    by (vm_compute; reflexivity).
  assert (H3 : restock refund1 w2 = (refund1, w2, Raised e))
    by (vm_compute; reflexivity).
  split; [exact H1|]. split; [exact H2|]. split; [exact H3|].
  destruct (mark_product_received_restock_raises restock [1; 2; 3] Doubles.db
              [Doubles.r1] [] Doubles.r2 w1 1 refund1 w2 e H1 H2 H3)
    as (_ & _ & _ & Hbody & _ & _ & _ & Hlast).
  split; [exact Hbody|]. exact Hlast.
Defined.

(** Request 3, of a registered user whose rewards account is missing. *)
Lemma complete_refund_helper_raises_witness :
  let process := Doubles.process_rewards [3] in
  let e := Exception "no rewards account" in
  let w3 := message_user ERROR (rewards_error Doubles.r3 e) Doubles.db in
  filter_status PROCESSING_REFUND [3; 4] Doubles.db
    = [] ++ Doubles.r3 :: [Doubles.r4]
  ∧ complete_loop process (Doubles.db, 0) [] = (Doubles.db, 0)
  ∧ user (row Doubles.r3) = Some {| username := "bob" |}
  ∧ process Doubles.r3 Doubles.db = (Doubles.r3, Doubles.db, Raised e)
  ∧ complete_body process (Doubles.db, 0) Doubles.r3 = (w3, 0)
  ∧ refunds w3 !! 3 = Some (row Doubles.r3)
  ∧ (complete_loop process (w3, 0) [Doubles.r4]).2 < 2.
Proof.
  intros process e w3.
  assert (H1 : filter_status PROCESSING_REFUND [3; 4] Doubles.db
               = [] ++ Doubles.r3 :: [Doubles.r4]) by (vm_compute; reflexivity).
  assert (H2 : complete_loop process (Doubles.db, 0) [] = (Doubles.db, 0))
    by reflexivity.
  assert (H3 : user (row Doubles.r3) = Some {| username := "bob" |})
    by reflexivity.
  assert (H4 : process Doubles.r3 Doubles.db
               = (Doubles.r3, Doubles.db, Raised e)) by (vm_compute; reflexivity).
  split; [exact H1|]. split; [exact H2|]. split; [exact H3|].
  split; [exact H4|].
  destruct (complete_refund_helper_raises process [3; 4] Doubles.db
              [] [Doubles.r4] Doubles.r3 Doubles.db 0 _ Doubles.r3 Doubles.db e
              H1 H2 H3 H4)
    as (_ & Hbody & _ & Hrow & _ & _ & Hcount).
  split; [exact Hbody|]. split; [exact (Hrow eq_refl)|].
  rewrite H1 in Hcount. exact Hcount.
Defined.

(** Request 4, a guest order, after request 3. *)
Lemma complete_refund_guest_witness :
  let process := Doubles.process_rewards [] in
  let w1 := (complete_loop process (Doubles.db, 0) [Doubles.r3]).1 in
  let refund1 :=
    assign (set_refund_completed_at (timezone_now w1))
           (assign (set_status COMPLETED) Doubles.r4) in
  let w2 := save refund1 w1 in
  filter_status PROCESSING_REFUND [3; 4] Doubles.db
    = [Doubles.r3] ++ Doubles.r4 :: []
  ∧ complete_loop process (Doubles.db, 0) [Doubles.r3] = (w1, 1)
  ∧ user (row Doubles.r4) = None
  ∧ (∀ other : Helper unit,
       complete_body other (w1, 1) Doubles.r4 = (w2, 1 + 1))
  ∧ refunds w2 !! 4 = Some (row refund1)
  ∧ status (row refund1) = COMPLETED
  ∧ refund_completed_at (row refund1) = Some 1700000000.
Proof.
  intros process w1 refund1 w2.
  assert (H1 : filter_status PROCESSING_REFUND [3; 4] Doubles.db
               = [Doubles.r3] ++ Doubles.r4 :: []) by (vm_compute; reflexivity).
  assert (H2 : complete_loop process (Doubles.db, 0) [Doubles.r3] = (w1, 1))
    by (vm_compute; reflexivity).
  assert (H3 : user (row Doubles.r4) = None) by reflexivity.
  split; [exact H1|]. split; [exact H2|]. split; [exact H3|].
  destruct (complete_refund_guest process [3; 4] Doubles.db
              [Doubles.r3] [] Doubles.r4 w1 1 H1 H2 H3)
    as (_ & Hbody & Hrow & Hst & Hat & _).
  split; [exact Hbody|]. split; [exact Hrow|]. split; [exact Hst|]. exact Hat.
Defined.

(** A selection with a pending, a processing and a completed request, and a
    primary key that is not in the table. *)
Lemma reject_refund_effect_witness :
  let w' := reject_refund [1; 3; 5; 9] Doubles.db in
  refunds w' !! 1
  = Some {| status := REJECTED; user := Some {| username := "alice" |};
            rewards_used := 500; product_received_at := None;
            refund_completed_at := None; rejection_reason := EmptyString;
            admin_notes := EmptyString |}
  ∧ status <$> refunds w' !! 1 = Some REJECTED
  ∧ refunds w' !! 5 = Some (row Doubles.r5)
  ∧ refunds w' !! 2 = refunds Doubles.db !! 2
  ∧ refunds w' !! 9 = None.
Proof.
  intros w'.
  destruct (reject_refund_effect [1; 3; 5; 9] Doubles.db)
    as (Hsel & Hterm & Hout & Hnone & _).
  assert (H1 : refunds w' !! 1
               = Some {| status := REJECTED;
                         user := Some {| username := "alice" |};
                         rewards_used := 500; product_received_at := None;
                         refund_completed_at := None;
                         rejection_reason := EmptyString;
                         admin_notes := EmptyString |}).
  { apply (Hsel 1 (row Doubles.r1));
      [by left | reflexivity
      | refine (bool_decide_unpack _ _); vm_compute; exact I]. }
  split; [exact H1|]. split.
  { rewrite H1. reflexivity. }
  split.
  { apply (Hterm 5 (row Doubles.r5)); [reflexivity | by left]. }
  split.
  { apply (Hout 2). refine (bool_decide_unpack _ _). vm_compute. exact I. }
  apply (Hnone 9). reflexivity.
Defined.

(** ** Further properties *)

(** *** Loops that save one row per turn *)

Lemma filter_status_nil (s : Status) (qs : QuerySet) (w : World) :
  (∀ i r, i ∈ qs → refunds w !! i = Some r → status r ≠ s) →
  filter_status s qs w = [].
Proof.
  intros Hno. destruct (filter_status s qs w) as [|x l] eqn:E; [done|].
  assert (Hx : x ∈ filter_status s qs w) by (rewrite E; by left).
  apply filter_status_elem in Hx as (Hi & Hr & Hs).
  by destruct (Hno (id x) (row x) Hi Hr).
Qed.

Lemma selected_instance (s : Status) (qs : QuerySet) (w : World) (i : Z)
    (r : RefundRow) :
  i ∈ qs → refunds w !! i = Some r → status r = s →
  i ∈ id <$> filter_status s qs w.
Proof.
  intros Hi Hr Hs. rewrite list_elem_of_fmap.
  exists {| id := i; row := r |}. split; [done|]. by apply filter_status_elem.
Qed.

Lemma not_selected_instance (s : Status) (qs : QuerySet) (w : World) (i : Z) :
  (i ∉ qs ∨ ∃ r, refunds w !! i = Some r ∧ status r ≠ s) →
  i ∉ id <$> filter_status s qs w.
Proof.
  intros Hi. rewrite list_elem_of_fmap. intros (x & -> & Hx).
  apply filter_status_elem in Hx as (Hqs & Hr & Hs).
  destruct Hi as [Hi|(r & Hr' & Hs')]; [done|]. congruence.
Qed.

Section SavingLoop.

Context (body : World * Z → RefundRequest → World * Z).
Context (Q : RefundRequest → RefundRow → Prop).
Context (Hstep : ∀ w n x, ∃ r',
  refunds (body (w, n) x).1 = <[id x := r']> (refunds w) ∧ Q x r').

Lemma saving_loop_untouched (l : list RefundRequest) (st : World * Z) (i : Z) :
  i ∉ id <$> l → refunds (foldl body st l).1 !! i = refunds st.1 !! i.
Proof.
  revert st. induction l as [|x l IH]; intros [w n] Hi; cbn [foldl]; [done|].
  rewrite fmap_cons, not_elem_of_cons in Hi. destruct Hi as [Hne Hi].
  rewrite (IH _ Hi). destruct (Hstep w n x) as (r' & -> & _).
  by rewrite lookup_insert_ne.
Qed.

Lemma saving_loop_written (l : list RefundRequest) (st : World * Z) (i : Z) :
  i ∈ id <$> l →
  ∃ x r', x ∈ l ∧ id x = i ∧ Q x r'
          ∧ refunds (foldl body st l).1 !! i = Some r'.
Proof.
  revert st. induction l as [|x l IH]; intros [w n] Hi; cbn [foldl].
  { by apply elem_of_nil in Hi. }
  destruct (decide (i ∈ id <$> l)) as [Hin|Hnin].
  - destruct (IH (body (w, n) x) Hin) as (y & r' & Hy & Hid & HQ & Hr).
    exists y, r'. split; [by right|done].
  - rewrite fmap_cons, elem_of_cons in Hi. destruct Hi as [->|Hi]; [|done].
    rewrite (saving_loop_untouched l _ _ Hnin).
    destruct (Hstep w n x) as (r' & -> & HQ).
    exists x, r'. rewrite lookup_insert_eq. split; [by left|done].
Qed.

End SavingLoop.

(** *** process_paypal_refund *)

Lemma paypal_step (w : World) (n : Z) (x : RefundRequest) :
  ∃ r', refunds (paypal_body (w, n) x).1 = <[id x := r']> (refunds w)
        ∧ r' = set_status PROCESSING_REFUND (row x).
Proof. by eexists. Qed.

Lemma paypal_loop_rest (l : list RefundRequest) (w : World) (n : Z) :
  ∃ m, paypal_loop (w, n) l
       = (with_refunds m w, n + Z.of_nat (length l)).
Proof.
  unfold paypal_loop. revert w n.
  induction l as [|x l IH]; intros w n; cbn [foldl length].
  { exists (refunds w). destruct w. unfold with_refunds. simpl.
    do 2 f_equal. lia. }
  destruct (IH (save (assign (set_status PROCESSING_REFUND) x) w) (n + 1))
    as [m Hm].
  exists m. unfold paypal_body at 2. rewrite Hm. unfold save, with_refunds.
  simpl. f_equal. lia.
Qed.

Lemma paypal_result (qs : QuerySet) (w : World) :
  ∃ m,
    process_paypal_refund qs w
    = message_user WARNING
        (paypal_summary
           (Z.of_nat (length (filter
              (λ i, status <$> refunds w !! i = Some PRODUCT_RECEIVED) qs))))
        (with_refunds m w)
    ∧ ∀ i, m !! i = to_processing qs i <$> refunds w !! i.
Proof.
  unfold process_paypal_refund.
  destruct (paypal_loop_rest (filter_status PRODUCT_RECEIVED qs w) w 0)
    as [m Hm].
  pose proof (saving_loop_untouched paypal_body _ paypal_step
                (filter_status PRODUCT_RECEIVED qs w) (w, 0)) as Hout.
  pose proof (saving_loop_written paypal_body _ paypal_step
                (filter_status PRODUCT_RECEIVED qs w) (w, 0)) as Hin.
  fold (paypal_loop (w, 0) (filter_status PRODUCT_RECEIVED qs w)) in Hout, Hin.
  rewrite Hm in *. simpl in *. exists m. split.
  { by rewrite filter_status_length, Z.add_0_l. }
  intros i. unfold to_processing.
  destruct (refunds w !! i) as [r|] eqn:Hr; simpl.
  - destruct (decide (i ∈ qs ∧ status r = PRODUCT_RECEIVED)) as [[Hqs Hs]|Hno].
    + rewrite bool_decide_eq_true_2 by done.
      destruct (Hin i (selected_instance _ _ _ _ _ Hqs Hr Hs))
        as (x & r' & Hx & Hid & -> & Hrow).
      apply filter_status_elem in Hx as (_ & Hx & _). rewrite Hid in Hx.
      rewrite Hrow. congruence.
    + rewrite bool_decide_eq_false_2 by done.
      rewrite Hout, Hr; [done|]. apply not_selected_instance.
      destruct (decide (i ∈ qs)); [right|by left].
      exists r. split; [done|]. intros Hs. by apply Hno.
  - rewrite Hout, Hr; [done|].
    rewrite list_elem_of_fmap. intros (x & -> & Hx).
    apply filter_status_elem in Hx as (_ & Hx & _). congruence.
Qed.

(** X1. The action moves each selected PRODUCT_RECEIVED request to
    PROCESSING_REFUND: the row it leaves has status PROCESSING_REFUND and
    every other column as it was (no timestamp is stamped); it leaves every other request alone, touches no other table and
    reports the number of requests it moved in one warning message. *)
Theorem process_paypal_refund_effect (qs : QuerySet) (w : World) :
  let w' := process_paypal_refund qs w in
  (∀ i r, i ∈ qs → refunds w !! i = Some r → status r = PRODUCT_RECEIVED →
          refunds w' !! i
          = Some {| status := PROCESSING_REFUND; user := user r;
                    rewards_used := rewards_used r;
                    product_received_at := product_received_at r;
                    refund_completed_at := refund_completed_at r;
                    rejection_reason := rejection_reason r;
                    admin_notes := admin_notes r |})
  ∧ (∀ i r, refunds w !! i = Some r → status r ≠ PRODUCT_RECEIVED →
            refunds w' !! i = Some r)
  ∧ (∀ i, i ∉ qs → refunds w' !! i = refunds w !! i)
  ∧ (∀ i, refunds w !! i = None → refunds w' !! i = None)
  ∧ items w' = items w
  ∧ inventory w' = inventory w
  ∧ reward_accounts w' = reward_accounts w
  ∧ clock w' = clock w
  ∧ messages w'
    = messages w
      ++ [{| level := WARNING;
             text := paypal_summary
               (Z.of_nat (length (filter
                  (λ i, status <$> refunds w !! i = Some PRODUCT_RECEIVED)
                  qs))) |}].
Proof.
  intros w'. subst w'. destruct (paypal_result qs w) as (m & -> & Hm).
  simpl. unfold to_processing in Hm.
  split; [|split; [|split; [|split]]].
  - intros i r Hqs Hr Hs. rewrite Hm, Hr. simpl.
    by rewrite bool_decide_eq_true_2.
  - intros i r Hr Hs. rewrite Hm, Hr. simpl.
    rewrite bool_decide_eq_false_2; [done|]. by intros [_ ?].
  - intros i Hqs. rewrite Hm. destruct (refunds w !! i) as [r|]; [|done].
    simpl. rewrite bool_decide_eq_false_2; [done|]. by intros [? _].
  - intros i Hr. by rewrite Hm, Hr.
  - done.
Qed.

(** X2. Run a second time on the same selection, the action finds no
    PRODUCT_RECEIVED request left: it changes nothing and reports zero. *)
Theorem process_paypal_refund_twice (qs : QuerySet) (w : World) :
  let w1 := process_paypal_refund qs w in
  process_paypal_refund qs w1 = message_user WARNING (paypal_summary 0) w1.
Proof.
  intros w1. subst w1. destruct (paypal_result qs w) as (m & Hw1 & Hm).
  assert (Hnil : filter_status PRODUCT_RECEIVED qs (process_paypal_refund qs w)
                 = []).
  { apply filter_status_nil. intros i r Hqs Hr. rewrite Hw1 in Hr.
    simpl in Hr. rewrite Hm in Hr. unfold to_processing in Hr.
    destruct (refunds w !! i) as [r0|]; [|done]. simpl in Hr.
    injection Hr as <-.
    destruct (decide (i ∈ qs ∧ status r0 = PRODUCT_RECEIVED)) as [Hyes|Hno].
    - by rewrite bool_decide_eq_true_2.
    - rewrite bool_decide_eq_false_2 by done. intros Hs. by apply Hno. }
  unfold process_paypal_refund at 1. by rewrite Hnil.
Qed.

(** *** manual_restock_items *)

Lemma filter_status_in_elem (ss : list Status) (qs : QuerySet) (w : World)
    (x : RefundRequest) :
  x ∈ filter_status_in ss qs w ↔
  id x ∈ qs ∧ refunds w !! id x = Some (row x) ∧ status (row x) ∈ ss.
Proof.
  unfold filter_status_in. rewrite list_elem_of_filter, fetch_elem. tauto.
Qed.

Lemma filter_status_in_length (ss : list Status) (qs : QuerySet) (w : World) :
  length (filter_status_in ss qs w)
  = length (filter
      (λ i, Exists (λ s, status <$> refunds w !! i = Some s) ss) qs).
Proof.
  unfold filter_status_in, fetch.
  induction qs as [|i qs IH]; [done|].
  rewrite (filter_cons
             (λ i, Exists (λ s, status <$> refunds w !! i = Some s) ss)).
  cbn [omap list_omap].
  destruct (refunds w !! i) as [r|] eqn:Hr; cbn [fmap option_fmap option_map].
  - rewrite filter_cons. cbn [row].
    destruct (decide (status r ∈ ss)) as [Hs|Hs].
    + rewrite decide_True by (apply Exists_exists; eauto).
      cbn [length]. by rewrite IH.
    + rewrite decide_False; [done|]. rewrite Exists_exists.
      intros (s & Hs' & Heq). congruence.
  - rewrite decide_False; [done|]. rewrite Exists_exists.
    by intros (s & _ & Heq).
Qed.

Lemma not_received_status (s : Status) :
  s ∈ [PENDING_RETURN; REJECTED] → s ∉ received_statuses.
Proof.
  unfold received_statuses. rewrite !elem_of_cons, !elem_of_nil.
  intros [->|[->|[]]] [?|[?|[?|[]]]]; discriminate.
Qed.

Section ManualRestock.

Context (restock : Helper unit).

Lemma manual_body_count (x : RefundRequest) (w : World) (n : Z) :
  (manual_body restock (w, n) x).2
  = match (restock x w).2 with Returned _ => n + 1 | Raised _ => n end.
Proof.
  unfold manual_body. by destruct (restock x w) as [[x' w'] [[]|e]].
Qed.

Lemma manual_loop_all_return (l : list RefundRequest) (w : World) (n : Z) :
  always_returns restock →
  (manual_loop restock (w, n) l).2 = n + Z.of_nat (length l).
Proof.
  intros Hret. unfold manual_loop. revert w n.
  induction l as [|x l IH]; intros w n; cbn [foldl length]; [simpl; lia|].
  pose proof (manual_body_count x w n) as Hn.
  destruct (Hret x w) as [a Ha]. rewrite Ha in Hn.
  destruct (manual_body restock (w, n) x) as [w' n']. simpl in Hn. subst n'.
  rewrite IH. lia.
Qed.

Lemma manual_loop_all_raise (l : list RefundRequest) (w : World) (n : Z) :
  always_raises restock →
  (manual_loop restock (w, n) l).2 = n.
Proof.
  intros Hraise. unfold manual_loop. revert w n.
  induction l as [|x l IH]; intros w n; cbn [foldl]; [done|].
  pose proof (manual_body_count x w n) as Hn.
  destruct (Hraise x w) as [e He]. rewrite He in Hn.
  destruct (manual_body restock (w, n) x) as [w' n']. simpl in Hn. subst n'.
  apply IH.
Qed.

Context (Hframe : restock_frame restock).

Lemma manual_body_frame (x : RefundRequest) (w : World) (n : Z) :
  refunds (manual_body restock (w, n) x).1 = refunds w
  ∧ ∀ j, j ≠ id x → items_of j (manual_body restock (w, n) x).1 = items_of j w.
Proof.
  unfold manual_body. destruct (Hframe x w) as [Hr Hi].
  destruct (restock x w) as [[x' w'] [[]|e]]; simpl in *; by split.
Qed.

Lemma manual_loop_frame (l : list RefundRequest) (st : World * Z) :
  refunds (manual_loop restock st l).1 = refunds st.1
  ∧ ∀ j, j ∉ id <$> l →
         items_of j (manual_loop restock st l).1 = items_of j st.1.
Proof.
  unfold manual_loop. revert st.
  induction l as [|x l IH]; intros [w n]; cbn [foldl]; [done|].
  destruct (IH (manual_body restock (w, n) x)) as [Hr Hi].
  destruct (manual_body_frame x w n) as [Hr0 Hi0].
  split; [by rewrite Hr, Hr0|].
  intros j Hj. rewrite fmap_cons, not_elem_of_cons in Hj.
  destruct Hj as [Hne Hj]. by rewrite Hi, Hi0.
Qed.

End ManualRestock.

(** X3. With a restock helper that keeps to the request it is called on,
    the manual restock changes no refund request (no status, no timestamp),
    and leaves alone the items of every request that is not selected or
    whose status is PENDING_RETURN or REJECTED. *)
Theorem manual_restock_items_frame (restock : Helper unit) (qs : QuerySet)
    (w : World) :
  restock_frame restock →
  let w' := manual_restock_items restock qs w in
  refunds w' = refunds w
  ∧ (∀ j, j ∉ qs → items_of j w' = items_of j w)
  ∧ (∀ j r, refunds w !! j = Some r → status r ∈ [PENDING_RETURN; REJECTED] →
            items_of j w' = items_of j w).
Proof.
  intros Hframe w'. subst w'. unfold manual_restock_items.
  destruct (manual_loop_frame restock Hframe
              (filter_status_in received_statuses qs w) (w, 0)) as [Hr Hi].
  destruct (manual_loop restock (w, 0)
              (filter_status_in received_statuses qs w)) as [w1 n].
  simpl in *.
  assert (Hitems : ∀ j,
            (∀ x, x ∈ filter_status_in received_statuses qs w → id x ≠ j) →
            items_of j w1 = items_of j w).
  { intros j Hj. apply Hi. rewrite list_elem_of_fmap.
    intros (x & -> & Hx). by apply (Hj x). }
  assert (Hmsg : ∀ lv t j, items_of j (message_user lv t w1) = items_of j w1)
    by done.
  split; [by destruct (decide (0 < n))|]. split.
  - intros j Hj. destruct (decide (0 < n)); rewrite Hmsg; apply Hitems;
      intros x Hx <-; by apply filter_status_in_elem in Hx as (? & _).
  - intros j r Hrow Hs.
    destruct (decide (0 < n)); rewrite Hmsg; apply Hitems;
      intros x Hx <-; apply filter_status_in_elem in Hx as (_ & Hx & Hin);
      rewrite Hrow in Hx; injection Hx as ->;
      by apply (not_received_status _ Hs).
Qed.

(** X4. When the restock helper returns for every request, the action
    reports the number of selected requests whose status is
    PRODUCT_RECEIVED, PROCESSING_REFUND or COMPLETED as restocked, whether
    or not the helper restocked anything; it warns that nothing was
    restocked only when there is no such request. *)
Theorem manual_restock_items_reports (restock : Helper unit) (qs : QuerySet)
    (w : World) :
  always_returns restock →
  let n := Z.of_nat (length (filter
             (λ i, Exists (λ s, status <$> refunds w !! i = Some s)
                          received_statuses) qs)) in
  last (messages (manual_restock_items restock qs w))
  = Some (if decide (0 < n)
          then {| level := SUCCESS; text := manual_summary n |}
          else {| level := WARNING; text := manual_nothing |}).
Proof.
  intros Hret n. subst n. unfold manual_restock_items.
  pose proof (manual_loop_all_return restock
                (filter_status_in received_statuses qs w) w 0 Hret) as Hn.
  rewrite filter_status_in_length, Z.add_0_l in Hn.
  destruct (manual_loop restock (w, 0)
              (filter_status_in received_statuses qs w)) as [w1 n].
  simpl in Hn. subst n.
  destruct (decide (0 < _)); simpl; by rewrite last_snoc.
Qed.

(** X5. When the restock helper raises for every request, the action ends
    with the warning that no items were restocked, however many requests
    were selected. *)
Theorem manual_restock_items_all_fail (restock : Helper unit) (qs : QuerySet)
    (w : World) :
  always_raises restock →
  last (messages (manual_restock_items restock qs w))
  = Some {| level := WARNING; text := manual_nothing |}.
Proof.
  intros Hraise. unfold manual_restock_items.
  pose proof (manual_loop_all_raise restock
                (filter_status_in received_statuses qs w) w 0 Hraise) as Hn.
  destruct (manual_loop restock (w, 0)
              (filter_status_in received_statuses qs w)) as [w1 n].
  simpl in Hn. subst n. simpl. by rewrite last_snoc.
Qed.

(** *** complete_refund, when the helper returns *)

Section CompleteFrame.

Context (process : Helper unit) (Hframe : rewards_frame process).

Lemma complete_body_other (x : RefundRequest) (w : World) (n : Z) (j : Z) :
  j ≠ id x →
  refunds (complete_body process (w, n) x).1 !! j = refunds w !! j.
Proof.
  intros Hne. unfold complete_body, complete_finish.
  destruct (has_user x).
  - destruct (Hframe x w) as [Hid Hr]. specialize (Hr j Hne).
    destruct (process x w) as [[x' w'] [[]|e]]; simpl in *.
    + rewrite lookup_insert_ne by congruence. done.
    + done.
  - simpl. by rewrite lookup_insert_ne.
Qed.

Lemma complete_loop_untouched (l : list RefundRequest) (st : World * Z)
    (j : Z) :
  j ∉ id <$> l →
  refunds (complete_loop process st l).1 !! j = refunds st.1 !! j.
Proof.
  unfold complete_loop. revert st.
  induction l as [|x l IH]; intros [w n] Hj; cbn [foldl]; [done|].
  rewrite fmap_cons, not_elem_of_cons in Hj. destruct Hj as [Hne Hj].
  rewrite (IH _ Hj). by apply complete_body_other.
Qed.

End CompleteFrame.

Lemma rewards_succeeds_frame (process : Helper unit) :
  rewards_succeeds process → rewards_frame process.
Proof.
  intros Hok x w. destruct (Hok x w) as (Hx & Hr & _).
  split; [by rewrite Hx|]. intros j _. by rewrite Hr.
Qed.

Lemma complete_step_succeeds (process : Helper unit) (w : World) (n : Z)
    (x : RefundRequest) :
  rewards_succeeds process →
  ∃ r', refunds (complete_body process (w, n) x).1 = <[id x := r']> (refunds w)
        ∧ ∃ t, r' = set_refund_completed_at t (set_status COMPLETED (row x)).
Proof.
  intros Hok. unfold complete_body, complete_finish.
  destruct (has_user x).
  - destruct (Hok x w) as (Hx & Hr & Hret).
    destruct (process x w) as [[x' w'] res]. simpl in *. subst x' res.
    simpl. rewrite Hr. eauto.
  - simpl. eauto.
Qed.

(** X6. Let the rewards helper return in the turn of [refund], a request of
    a registered user.  The turn saves the instance as the helper left it,
    with status COMPLETED and [refund_completed_at] read from the clock
    after the call, adds no message, counts the request and the loop goes
    on. *)
Theorem complete_refund_helper_returns (process : Helper unit) (qs : QuerySet)
    (w : World) (l1 l2 : list RefundRequest) (refund : RefundRequest)
    (w1 : World) (n1 : Z) (u : User) (refund' : RefundRequest) (w2 : World) :
  filter_status PROCESSING_REFUND qs w = l1 ++ refund :: l2 →
  complete_loop process (w, 0) l1 = (w1, n1) →
  user (row refund) = Some u →
  process refund w1 = (refund', w2, Returned ()) →
  let refund2 :=
    assign (set_refund_completed_at (timezone_now w2))
           (assign (set_status COMPLETED) refund') in
  let w3 := save refund2 w2 in
  complete_body process (w1, n1) refund = (w3, n1 + 1)
  ∧ refunds w3 !! id refund' = Some (row refund2)
  ∧ status (row refund2) = COMPLETED
  ∧ refund_completed_at (row refund2) = Some (clock w2)
  ∧ product_received_at (row refund2) = product_received_at (row refund')
  ∧ user (row refund2) = user (row refund')
  ∧ rewards_used (row refund2) = rewards_used (row refund')
  ∧ (∀ i, i ≠ id refund' → refunds w3 !! i = refunds w2 !! i)
  ∧ items w3 = items w2
  ∧ reward_accounts w3 = reward_accounts w2
  ∧ messages w3 = messages w2
  ∧ complete_refund process qs w
    = (let '(w4, n) := complete_loop process (w3, n1 + 1) l2 in
       message_user SUCCESS (complete_summary n) w4).
Proof.
  intros Hsel Hl1 Hu Hret refund2 w3.
  assert (Hbody : complete_body process (w1, n1) refund = (w3, n1 + 1)).
  { unfold complete_body, has_user. rewrite Hu.
    rewrite bool_decide_eq_true_2 by eauto. by rewrite Hret. }
  split; [done|]. split.
  { subst w3. simpl. apply lookup_insert_eq. }
  do 5 (split; [done|]). split.
  { intros i Hi. subst w3. simpl. by rewrite lookup_insert_ne. }
  do 3 (split; [done|]).
  unfold complete_refund. by rewrite Hsel, complete_loop_split, Hl1, Hbody.
Qed.

(** *** Selections with nothing in the expected state *)

Lemma filter_status_in_nil (ss : list Status) (qs : QuerySet) (w : World) :
  (∀ i r, i ∈ qs → refunds w !! i = Some r → status r ∉ ss) →
  filter_status_in ss qs w = [].
Proof.
  intros Hno. destruct (filter_status_in ss qs w) as [|x l] eqn:E; [done|].
  assert (Hx : x ∈ filter_status_in ss qs w) by (rewrite E; by left).
  apply filter_status_in_elem in Hx as (Hi & Hr & Hs).
  by destruct (Hno (id x) (row x) Hi Hr).
Qed.

(** X7. An action that finds no selected request in the state it works on
    (the empty selection included) calls no helper and writes no table; it
    only adds its closing message, with a count of zero.  For
    [mark_product_received] and [complete_refund] that message has level
    SUCCESS. *)
Theorem actions_skip_other_states (restock process : Helper unit)
    (qs : QuerySet) (w : World) :
  ((∀ i r, i ∈ qs → refunds w !! i = Some r → status r ≠ PENDING_RETURN) →
   mark_product_received restock qs w
   = message_user SUCCESS (mark_summary 0) w)
  ∧ ((∀ i r, i ∈ qs → refunds w !! i = Some r →
             status r ∉ received_statuses) →
     manual_restock_items restock qs w
     = message_user WARNING manual_nothing w)
  ∧ ((∀ i r, i ∈ qs → refunds w !! i = Some r →
             status r ≠ PRODUCT_RECEIVED) →
     process_paypal_refund qs w
     = message_user WARNING (paypal_summary 0) w)
  ∧ ((∀ i r, i ∈ qs → refunds w !! i = Some r →
             status r ≠ PROCESSING_REFUND) →
     complete_refund process qs w
     = message_user SUCCESS (complete_summary 0) w).
Proof.
  split; [|split; [|split]]; intros Hno.
  - unfold mark_product_received. by rewrite filter_status_nil.
  - unfold manual_restock_items. by rewrite filter_status_in_nil.
  - unfold process_paypal_refund. by rewrite filter_status_nil.
  - unfold complete_refund. by rewrite filter_status_nil.
Qed.

(** *** The terminal states *)

Lemma reject_lookup (qs : QuerySet) (w : World) (i : Z) :
  refunds (reject_refund qs w) !! i
  = (λ r, if rejectable qs i r then set_status REJECTED r else r)
    <$> refunds w !! i.
Proof.
  unfold reject_refund, update_rejected. simpl. rewrite map_lookup_imap.
  by destruct (refunds w !! i).
Qed.

(** X8. A COMPLETED or REJECTED request is final for the status actions.
    Let the restock helper write no refund request at all (and no item of
    a request other than the one it is called on), and let the rewards
    helper hand back the same primary key and write no refund request
    other than the one it is called on.  Then none of
    [mark_product_received], [manual_restock_items],
    [process_paypal_refund], [complete_refund] and [reject_refund] changes
    the row of a COMPLETED or REJECTED request, selected or not. *)
Theorem terminal_states_absorbing (restock process : Helper unit)
    (qs : QuerySet) (w : World) (i : Z) (r : RefundRow) :
  restock_frame restock →
  rewards_frame process →
  refunds w !! i = Some r →
  status r ∈ [COMPLETED; REJECTED] →
  refunds (mark_product_received restock qs w) !! i = Some r
  ∧ refunds (manual_restock_items restock qs w) !! i = Some r
  ∧ refunds (process_paypal_refund qs w) !! i = Some r
  ∧ refunds (complete_refund process qs w) !! i = Some r
  ∧ refunds (reject_refund qs w) !! i = Some r.
Proof.
  intros Hrestock Hprocess Hr Hs.
  assert (Hne : status r ≠ PENDING_RETURN ∧ status r ≠ PRODUCT_RECEIVED
                ∧ status r ≠ PROCESSING_REFUND).
  { rewrite !elem_of_cons, elem_of_nil in Hs.
    destruct Hs as [->|[->|[]]]; by repeat split. }
  destruct Hne as (Hn1 & Hn2 & Hn3).
  split; [|split; [|split; [|split]]].
  - unfold mark_product_received.
    pose proof (mark_loop_untouched restock Hrestock
                  (filter_status PENDING_RETURN qs w) (w, 0) i) as Hout.
    destruct (mark_loop restock (w, 0) (filter_status PENDING_RETURN qs w))
      as [w1 n]. simpl in *.
    destruct Hout as [-> _]; [|done].
    apply not_selected_instance. right. eauto.
  - unfold manual_restock_items.
    destruct (manual_loop_frame restock Hrestock
                (filter_status_in received_statuses qs w) (w, 0)) as [Hrf _].
    destruct (manual_loop restock (w, 0)
                (filter_status_in received_statuses qs w)) as [w1 n].
    simpl in *. destruct (decide (0 < n)); simpl; by rewrite Hrf.
  - destruct (paypal_result qs w) as (m & -> & Hm). simpl.
    rewrite Hm, Hr. simpl. unfold to_processing.
    rewrite bool_decide_eq_false_2; [done|]. by intros [_ ?].
  - unfold complete_refund.
    pose proof (complete_loop_untouched process Hprocess
                  (filter_status PROCESSING_REFUND qs w) (w, 0) i) as Hout.
    destruct (complete_loop process (w, 0)
                (filter_status PROCESSING_REFUND qs w)) as [w1 n].
    simpl in *. rewrite Hout; [done|].
    apply not_selected_instance. right. eauto.
  - rewrite reject_lookup, Hr. simpl. unfold rejectable.
    rewrite (bool_decide_eq_true_2 _ Hs). by rewrite andb_false_r.
Qed.

(** X9. With a rewards helper that keeps to the request it is called on,
    [complete_refund] leaves every request that is not PROCESSING_REFUND,
    and every request that is not selected, as it was, and the count in its
    closing message is at most the number of selected PROCESSING_REFUND
    requests. *)
Theorem complete_refund_frame (process : Helper unit) (qs : QuerySet)
    (w : World) :
  rewards_frame process →
  let w' := complete_refund process qs w in
  (∀ i r, refunds w !! i = Some r → status r ≠ PROCESSING_REFUND →
          refunds w' !! i = Some r)
  ∧ (∀ i, i ∉ qs → refunds w' !! i = refunds w !! i)
  ∧ ∃ n, 0 ≤ n ≤ Z.of_nat (length (filter
             (λ i, status <$> refunds w !! i = Some PROCESSING_REFUND) qs))
         ∧ last (messages w')
           = Some {| level := SUCCESS; text := complete_summary n |}.
Proof.
  intros Hframe w'. subst w'. unfold complete_refund.
  pose proof (complete_loop_untouched process Hframe
                (filter_status PROCESSING_REFUND qs w) (w, 0)) as Hout.
  pose proof (complete_loop_count process
                (filter_status PROCESSING_REFUND qs w) w 0) as Hn.
  rewrite filter_status_length in Hn.
  destruct (complete_loop process (w, 0)
              (filter_status PROCESSING_REFUND qs w)) as [w1 n].
  simpl in *. split; [|split].
  - intros i r Hr Hs. rewrite Hout; [done|].
    apply not_selected_instance. right. eauto.
  - intros i Hi. apply Hout. apply not_selected_instance. by left.
  - exists n. split; [lia|]. by rewrite last_snoc.
Qed.

(** *** The actions in sequence *)

(** X10. Let the restock helper write no refund request at all (and no
    item of a request other than the one it is called on), and let the
    rewards helper always return, hand the instance back as it got it and
    write no refund request at all.  Then running [mark_product_received],
    then [process_paypal_refund], then [complete_refund] on the same
    selection takes every selected PENDING_RETURN request to COMPLETED,
    with both timestamps stamped and its other columns as they were. *)
Theorem refund_pipeline (restock process : Helper unit) (qs : QuerySet)
    (w : World) (i : Z) (r : RefundRow) :
  restock_frame restock →
  rewards_succeeds process →
  i ∈ qs →
  refunds w !! i = Some r →
  status r = PENDING_RETURN →
  let w1 := mark_product_received restock qs w in
  let w2 := process_paypal_refund qs w1 in
  let w3 := complete_refund process qs w2 in
  ∃ t1 t2,
    refunds w3 !! i
    = Some {| status := COMPLETED; user := user r;
              rewards_used := rewards_used r;
              product_received_at := Some t1;
              refund_completed_at := Some t2;
              rejection_reason := rejection_reason r;
              admin_notes := admin_notes r |}.
Proof.
  intros Hrestock Hprocess Hqs Hr Hs w1 w2 w3.
  (* received *)
  assert (H1 : ∃ t1, refunds w1 !! i
                 = Some (set_product_received_at t1
                           (set_status PRODUCT_RECEIVED r))).
  { subst w1. unfold mark_product_received.
    pose proof (mark_loop_received restock Hrestock
                  (filter_status PENDING_RETURN qs w) (w, 0) i r) as Hin.
    destruct (mark_loop restock (w, 0) (filter_status PENDING_RETURN qs w))
      as [w' n]. simpl in *. apply Hin.
    - intros x Hx <-. apply filter_status_elem in Hx as (_ & Hx & _).
      congruence.
    - by apply (selected_instance _ _ _ _ r). }
  destruct H1 as [t1 H1].
  (* processing *)
  assert (H2 : refunds w2 !! i
               = Some (set_status PROCESSING_REFUND
                         (set_product_received_at t1
                            (set_status PRODUCT_RECEIVED r)))).
  { subst w2. destruct (paypal_result qs w1) as (m & -> & Hm). simpl.
    rewrite Hm, H1. simpl. unfold to_processing.
    by rewrite bool_decide_eq_true_2. }
  (* completed *)
  subst w3. unfold complete_refund.
  pose proof (saving_loop_written (complete_body process) _
                (λ w n x, complete_step_succeeds process w n x Hprocess)
                (filter_status PROCESSING_REFUND qs w2) (w2, 0) i) as Hin.
  fold (complete_loop process (w2, 0)
          (filter_status PROCESSING_REFUND qs w2)) in Hin.
  destruct (complete_loop process (w2, 0)
              (filter_status PROCESSING_REFUND qs w2)) as [w' n].
  simpl in *.
  destruct Hin as (x & r' & Hx & Hid & [t2 ->] & Hrow).
  { by apply (selected_instance _ _ _ _ _ Hqs H2). }
  apply filter_status_elem in Hx as (_ & Hx & _).
  rewrite Hid, H2 in Hx. injection Hx as Hx.
  exists t1, t2. by rewrite Hrow, <- Hx.
Qed.

(** X11. Let the restock helper write no refund request at all (and no
    item of a request other than the one it is called on).  Then a second
    run of [mark_product_received] on the same selection finds no
    PENDING_RETURN request: it calls no helper, writes nothing and reports
    zero. *)
Theorem mark_product_received_twice (restock : Helper unit) (qs : QuerySet)
    (w : World) :
  restock_frame restock →
  let w1 := mark_product_received restock qs w in
  mark_product_received restock qs w1
  = message_user SUCCESS (mark_summary 0) w1.
Proof.
  intros Hframe w1.
  assert (Hnil : filter_status PENDING_RETURN qs w1 = []).
  { apply filter_status_nil. intros i r1 Hqs Hr1. subst w1.
    unfold mark_product_received in Hr1.
    pose proof (mark_loop_untouched restock Hframe
                  (filter_status PENDING_RETURN qs w) (w, 0) i) as Hout.
    pose proof (mark_loop_received restock Hframe
                  (filter_status PENDING_RETURN qs w) (w, 0) i) as Hin.
    destruct (mark_loop restock (w, 0) (filter_status PENDING_RETURN qs w))
      as [w' n]. simpl in *.
    destruct (refunds w !! i) as [r|] eqn:Hr.
    - destruct (decide (status r = PENDING_RETURN)) as [Hs|Hs].
      + destruct (Hin r) as [t Ht].
        * intros x Hx <-. apply filter_status_elem in Hx as (_ & Hx & _).
          congruence.
        * by apply (selected_instance _ _ _ _ r).
        * rewrite Ht in Hr1. by injection Hr1 as <-.
      + destruct Hout as [Hout _].
        * apply not_selected_instance. right. eauto.
        * congruence.
    - destruct Hout as [Hout _].
      + rewrite list_elem_of_fmap. intros (x & -> & Hx).
        apply filter_status_elem in Hx as (_ & Hx & _). congruence.
      + congruence. }
  unfold mark_product_received at 1. by rewrite Hnil.
Qed.

(** *** reject_refund, again *)

Lemma with_refunds_id (w : World) : with_refunds (refunds w) w = w.
Proof. by destruct w. Qed.

Lemma rejectable_true (qs : QuerySet) (i : Z) (r : RefundRow) :
  rejectable qs i r = true ↔ i ∈ qs ∧ status r ∉ [COMPLETED; REJECTED].
Proof.
  unfold rejectable.
  rewrite andb_true_iff, negb_true_iff, bool_decide_eq_true,
    bool_decide_eq_false. done.
Qed.

Lemma rejected_not_rejectable (qs : QuerySet) (w : World) (i : Z)
    (r1 : RefundRow) :
  refunds (reject_refund qs w) !! i = Some r1 → rejectable qs i r1 = false.
Proof.
  rewrite reject_lookup. destruct (refunds w !! i) as [r|]; [|done].
  simpl. intros [= <-]. destruct (rejectable qs i r) eqn:E; [|done].
  apply not_true_is_false. rewrite rejectable_true. intros [_ Hs].
  apply Hs. simpl. right. by left.
Qed.

(** X12. A second run of [reject_refund] on the same selection matches no
    row: it changes nothing and reports zero. *)
Theorem reject_refund_twice (qs : QuerySet) (w : World) :
  let w1 := reject_refund qs w in
  reject_refund qs w1 = message_user WARNING (reject_summary 0) w1.
Proof.
  intros w1. pose proof (rejected_not_rejectable qs w) as Hno. fold w1 in Hno.
  unfold reject_refund at 1, update_rejected.
  assert (Hsize : filter (λ kv, rejectable qs kv.1 kv.2 = true) (refunds w1)
                  = ∅).
  { apply map_eq. intros i. rewrite lookup_empty.
    apply map_lookup_filter_None. right. intros r1 Hr1. simpl.
    by rewrite (Hno i r1 Hr1). }
  assert (Hmap : map_imap (λ i r, Some (if rejectable qs i r
                                        then set_status REJECTED r else r))
                          (refunds w1) = refunds w1).
  { apply map_eq. intros i. rewrite map_lookup_imap.
    destruct (refunds w1 !! i) as [r1|] eqn:Hr1; [|done]. simpl.
    by rewrite (Hno i r1 Hr1). }
  by rewrite Hsize, Hmap, map_size_empty, with_refunds_id.
Qed.

Lemma rejectable_size (qs : QuerySet) (m : gmap Z RefundRow) :
  NoDup qs →
  size (filter (λ kv, rejectable qs kv.1 kv.2 = true) m)
  = length (filter
      (λ i, Exists (λ s, status <$> m !! i = Some s)
                   [PENDING_RETURN; PRODUCT_RECEIVED; PROCESSING_REFUND]) qs).
Proof.
  assert (Hopen : ∀ i, Exists (λ s, status <$> m !! i = Some s)
                    [PENDING_RETURN; PRODUCT_RECEIVED; PROCESSING_REFUND]
                  ↔ ∃ r, m !! i = Some r ∧ status r ∉ [COMPLETED; REJECTED]).
  { intros i. rewrite Exists_exists. split.
    - intros (s & Hs & Heq). destruct (m !! i) as [r|]; [|done].
      exists r. split; [done|]. simpl in Heq. injection Heq as ->.
      rewrite !elem_of_cons, elem_of_nil in Hs. rewrite !elem_of_cons, elem_of_nil.
      destruct Hs as [->|[->|[->|[]]]]; intros [?|[?|[]]]; discriminate.
    - intros (r & Hr & Hs). exists (status r). rewrite Hr. split; [|done].
      rewrite !elem_of_cons, elem_of_nil in Hs. rewrite !elem_of_cons.
      destruct (status r); auto; exfalso; apply Hs; auto. }
  induction 1 as [|i qs Hi Hnd IH].
  - simpl. apply map_size_empty_iff. apply map_eq. intros k.
    rewrite lookup_empty. apply map_lookup_filter_None. right.
    intros r _. simpl. intros Hrj. apply rejectable_true in Hrj as [Hk _].
    by apply elem_of_nil in Hk.
  - rewrite filter_cons.
    destruct (decide (Exists _ _)) as [Hex|Hex].
    + apply Hopen in Hex as (r & Hr & Hs). cbn [length]. rewrite <- IH.
      rewrite <- (map_size_insert_None i r).
      * f_equal. apply map_eq. intros k. apply option_eq. intros x.
        rewrite map_lookup_filter_Some. simpl. rewrite rejectable_true.
        destruct (decide (k = i)) as [->|Hne].
        -- rewrite lookup_insert_eq. split.
           ++ intros [Hx _]. congruence.
           ++ intros [= <-]. split; [done|]. split; [by left|done].
        -- rewrite lookup_insert_ne by done.
           rewrite map_lookup_filter_Some. simpl. rewrite rejectable_true.
           rewrite elem_of_cons. intuition congruence.
      * apply map_lookup_filter_None. right. intros x _. simpl.
        rewrite rejectable_true. by intros [? _].
    + rewrite <- IH. f_equal. apply map_filter_ext. intros k x Hx. simpl.
      rewrite !rejectable_true, elem_of_cons. split; [|intuition].
      intros [[->|Hk] Hs]; [|done]. destruct Hex. apply Hopen. eauto.
Qed.

(** X13. For a selection without repeated primary keys, the number
    [reject_refund] reports is the number of selected requests whose status
    was PENDING_RETURN, PRODUCT_RECEIVED or PROCESSING_REFUND. *)
Theorem reject_refund_count (qs : QuerySet) (w : World) :
  NoDup qs →
  last (messages (reject_refund qs w))
  = Some {| level := WARNING;
            text := reject_summary
              (Z.of_nat (length (filter
                 (λ i, Exists (λ s, status <$> refunds w !! i = Some s)
                    [PENDING_RETURN; PRODUCT_RECEIVED; PROCESSING_REFUND])
                 qs))) |}.
Proof.
  intros Hnd. unfold reject_refund, update_rejected. simpl.
  by rewrite last_snoc, rejectable_size.
Qed.

(** *** restore_rewards_goodwill, again *)

Section RestoreMore.

Context (restore : Helper bool).

Lemma restore_loop_skips (todo seen : list RefundRequest) (c : Counters)
    (w : World) :
  (∀ x, x ∈ todo → ¬ eligible x) →
  restore_loop restore todo seen c w
  = (w, Returned
          (seen ++ todo,
           {| restored_count := restored_count c;
              no_rewards_count :=
                no_rewards_count c
                + Z.of_nat (length (filter (λ r, has_user r = true) todo));
              already_restored_count := already_restored_count c;
              guest_count :=
                guest_count c
                + Z.of_nat (length (filter (λ r, has_user r = false) todo))
           |})).
Proof.
  revert seen c. induction todo as [|x todo IH]; intros seen c Hno.
  { simpl. rewrite app_nil_r, !Z.add_0_r. by destruct c. }
  assert (Hrest : ∀ y, y ∈ todo → ¬ eligible y)
    by (intros y Hy; apply Hno; by right).
  assert (Hx : ¬ eligible x) by (apply Hno; by left).
  cbn [restore_loop]. rewrite !filter_cons.
  destruct (has_user x) eqn:Hu; cbn [negb].
  - rewrite (decide_True (P := true = true)) by done.
    rewrite (decide_False (P := true = false)) by done.
    destruct (decide (rewards_used (row x) ≤ 0)) as [Hle|Hgt];
      [|destruct Hx; split; [done|lia]].
    rewrite (IH _ _ Hrest). rewrite <- app_assoc. simpl.
    do 3 f_equal. f_equal; lia.
  - rewrite (decide_False (P := false = true)) by done.
    rewrite (decide_True (P := false = false)) by done.
    rewrite (IH _ _ Hrest). rewrite <- app_assoc. simpl.
    do 3 f_equal. f_equal; lia.
Qed.

Lemma restore_loop_cache (todo seen : list RefundRequest) (c : Counters)
    (w : World) :
  keeps_instance restore →
  match restore_loop restore todo seen c w with
  | (_, Returned (cache, _)) => cache = seen ++ todo
  | (_, Raised _) => True
  end.
Proof.
  intros Hkeep. revert seen c w.
  induction todo as [|x todo IH]; intros seen c w.
  { simpl. by rewrite app_nil_r. }
  assert (Hgo : ∀ c0 w0,
            match restore_loop restore todo (seen ++ [x]) c0 w0 with
            | (_, Returned (cache, _)) => cache = seen ++ x :: todo
            | (_, Raised _) => True
            end).
  { intros c0 w0. specialize (IH (seen ++ [x]) c0 w0).
    destruct (restore_loop restore todo (seen ++ [x]) c0 w0)
      as [w' [[cache c']|e]]; [|done].
    by rewrite IH, <- app_assoc. }
  cbn [restore_loop].
  destruct (has_user x); cbn [negb]; [|apply Hgo].
  destruct (decide (rewards_used (row x) ≤ 0)); [apply Hgo|].
  pose proof (Hkeep x w) as Hx.
  destruct (restore x w) as [[x' w1] [success|e]]; [|done].
  simpl in Hx. subst x'. destruct success; apply Hgo.
Qed.

End RestoreMore.

(** X14. When no selected request belongs to a registered user with rewards
    used, the action never calls the helper and writes nothing: it adds one
    warning that lists how many requests had no rewards used and how many
    were guest orders.  On an empty selection the text ends after the
    colon. *)
Theorem restore_rewards_goodwill_none_eligible (restore : Helper bool)
    (qs : QuerySet) (w : World) :
  (∀ x, x ∈ fetch qs w → ¬ eligible x) →
  let k := Z.of_nat (length (filter (λ r, has_user r = true) (fetch qs w))) in
  let g := Z.of_nat (length (filter (λ r, has_user r = false) (fetch qs w))) in
  restore_rewards_goodwill restore qs w
  = (message_user WARNING
       ("No rewards restored: "
        +:+ join ", "
          ((if decide (0 < k)
            then [fmt_int k +:+ " had no rewards used in original purchase"]
            else [])
           ++ (if decide (0 < g)
               then [fmt_int g +:+ " were guest orders (no rewards to restore)"]
               else []))) w,
     Returned ()).
Proof.
  intros Hno k g. unfold restore_rewards_goodwill.
  rewrite (restore_loop_skips restore _ _ _ _ Hno).
  unfold restore_report, restore_messages. simpl. by rewrite !Z.add_0_l.
Qed.

(** X15. With a helper that leaves the instance as it got it, the dollar
    figure in the success message is the sum of [rewards_used] over every
    selected request of a registered user with rewards used, whether the
    helper restored its rewards now or reported them as restored
    already. *)
Theorem restore_reported_total (restore : Helper bool) (qs : QuerySet)
    (w : World) :
  keeps_instance restore →
  let total :=
    sum ((λ r, rewards_used (row r)) <$> filter eligible (fetch qs w)) in
  match restore_loop restore (fetch qs w) [] zero w with
  | (w', Returned (cache, c)) =>
      reported_total cache = total
      ∧ (0 < restored_count c →
         ∃ rest,
           restore_rewards_goodwill restore qs w
           = (message_user SUCCESS
                ("Rewards restored as goodwill gesture: "
                 +:+ join ", "
                   ((fmt_int (restored_count c) +:+ " customer(s) had $"
                     +:+ fmt_money total +:+ " in rewards restored")
                    :: rest)) w',
              Returned ()))
  | (_, Raised _) => True
  end.
Proof.
  intros Hkeep total.
  pose proof (restore_loop_cache restore (fetch qs w) [] zero w Hkeep) as Hc.
  unfold restore_rewards_goodwill.
  destruct (restore_loop restore (fetch qs w) [] zero w)
    as [w' [[cache c]|e]]; [|done].
  simpl in Hc. subst cache. split; [done|].
  intros Hpos. unfold restore_report, restore_messages.
  rewrite !(decide_True (P := 0 < restored_count c)) by done.
  eexists. reflexivity.
Qed.

(** *** Storefront routing *)

Section Routing.

Import StoreUrls.

Lemma append_cons (x : Ascii.ascii) (a b : string) :
  String x a +:+ b = String x (a +:+ b).
Proof. reflexivity. Qed.

Lemma append_assoc (a b c : string) : (a +:+ b) +:+ c = a +:+ b +:+ c.
Proof.
  induction a as [|x a IH]; [done|]. rewrite !append_cons. by rewrite IH.
Qed.

Lemma strip_prefix_Some (p s rest : string) :
  strip_prefix p s = Some rest ↔ s = p +:+ rest.
Proof.
  revert s. induction p as [|a p IH]; intros s.
  { change (Some s = Some rest ↔ s = rest). split; congruence. }
  rewrite append_cons. destruct s as [|b s]; [split; discriminate|].
  cbn [strip_prefix]. destruct (Ascii.eqb_spec a b) as [->|Hne].
  - rewrite IH. split; congruence.
  - split; [discriminate|]. congruence.
Qed.

Lemma strip_prefix_app (p s : string) : strip_prefix p (p +:+ s) = Some s.
Proof. by apply strip_prefix_Some. Qed.

Lemma capture_sound {R} (ok : Ascii.ascii → bool) (k : string → option R)
    (pre s v : string) (r : R) :
  capture ok k pre s = Some (v, r) →
  ∃ mid rest,
    s = mid +:+ rest ∧ v = pre +:+ mid ∧ mid ≠ EmptyString
    ∧ all_chars ok mid = true ∧ k rest = Some r.
Proof.
  revert pre. induction s as [|a s IH]; intros pre; cbn [capture];
    [discriminate|].
  destruct (ok a) eqn:Ha; [|discriminate].
  destruct (capture ok k (pre +:+ String a EmptyString) s) as [[v0 r0]|] eqn:E.
  - intros [= -> ->].
    destruct (IH _ E) as (mid & rest & -> & -> & _ & Hall & Hk).
    exists (String a mid), rest. rewrite append_assoc, !append_cons.
    cbn [all_chars]. by rewrite Ha, Hall.
  - destruct (k s) as [r0|] eqn:Hk; [|discriminate].
    intros [= <- <-]. exists (String a EmptyString), s.
    cbn [all_chars]. by rewrite Ha.
Qed.

Lemma capture_complete {R} (ok : Ascii.ascii → bool) (k : string → option R)
    (pre mid rest : string) (r : R) :
  mid ≠ EmptyString →
  all_chars ok mid = true →
  (∀ a rest', rest = String a rest' → ok a = false) →
  k rest = Some r →
  capture ok k pre (mid +:+ rest) = Some (pre +:+ mid, r).
Proof.
  intros Hne Hall Hstop Hk. revert pre.
  induction mid as [|a mid IH]; intros pre; [done|].
  rewrite append_cons. cbn [capture all_chars] in *.
  apply andb_true_iff in Hall as [Ha Hall]. rewrite Ha.
  destruct mid as [|b mid].
  - change (EmptyString +:+ rest) with rest.
    assert (capture ok k (pre +:+ String a EmptyString) rest = None) as ->.
    { destruct rest as [|c rest]; [done|]. cbn [capture].
      by rewrite (Hstop c rest). }
    by rewrite Hk.
  - rewrite (IH ltac:(done) Hall). by rewrite append_assoc.
Qed.

Lemma match_slash (rest : string) (kw : list (string * string)) :
  match_route [Lit "/"] rest = Some kw ↔ rest = "/" ∧ kw = [].
Proof.
  cbn [match_route]. split.
  - destruct (strip_prefix "/" rest) as [s1|] eqn:Hs; [|done].
    apply strip_prefix_Some in Hs as ->. cbn [mbind option_bind].
    destruct (decide (s1 = EmptyString)) as [->|]; [|done].
    by intros [= <-].
  - intros [-> ->]. reflexivity.
Qed.

Lemma conv_char_slash (c : Converter) (a : Ascii.ascii) (rest' : string) :
  "/" = String a rest' → conv_char c a = false.
Proof. intros [= <- _]. by destruct c. Qed.

(** The paths matched by a route made of a literal, one group and a
    closing slash. *)
Lemma match_group (l : string) (c : Converter) (n : string) (s : string)
    (kw : list (string * string)) :
  match_route [Lit l; Arg c n; Lit "/"] s = Some kw ↔
  ∃ v, s = l +:+ v +:+ "/" ∧ v ≠ EmptyString
       ∧ all_chars (conv_char c) v = true ∧ kw = [(n, v)].
Proof.
  cbn [match_route]. split.
  - destruct (strip_prefix l s) as [s1|] eqn:Hl; [|done].
    cbn [mbind option_bind].
    apply strip_prefix_Some in Hl as ->.
    destruct (capture _ _ _ s1) as [[v kw']|] eqn:Hc; [|done].
    cbn [fmap option_fmap option_map fst snd]. intros [= <-].
    apply (capture_sound _ (match_route [Lit "/"])) in Hc
      as (mid & rest & -> & -> & Hne & Hall & Hk).
    apply match_slash in Hk as [-> ->]. by exists mid.
  - intros (v & -> & Hne & Hall & ->). rewrite strip_prefix_app.
    cbn [mbind option_bind].
    rewrite (capture_complete _ (match_route [Lit "/"]) EmptyString v "/" []);
      [done|done|done|apply conv_char_slash|by apply match_slash].
Qed.

Lemma resolve_in_skip (r : Route) (rs : list Route) (s : string) :
  match_route (route r) s = None →
  resolve_in (r :: rs) s = resolve_in rs s.
Proof. intros H. cbn [resolve_in]. by rewrite H. Qed.

Lemma resolve_in_hit (r : Route) (rs : list Route) (s : string)
    (kw : list (string * string)) :
  match_route (route r) s = Some kw →
  resolve_in (r :: rs) s = Some (view r, kw).
Proof. intros H. cbn [resolve_in]. by rewrite H. Qed.

Lemma resolve_product (v : string) :
  valid_arg slug_converter v →
  resolve ("product/" +:+ v +:+ "/")
  = Some (product_info, [("product_slug", v)]).
Proof.
  intros [Hne Hall]. unfold resolve, urlpatterns.
  rewrite resolve_in_skip by reflexivity.
  apply resolve_in_hit. apply match_group. by exists v.
Qed.

Lemma resolve_category (v : string) :
  valid_arg slug_converter v →
  resolve ("search/" +:+ v +:+ "/")
  = Some (list_category, [("category_slug", v)]).
Proof.
  intros [Hne Hall]. unfold resolve, urlpatterns.
  do 2 rewrite resolve_in_skip by reflexivity.
  apply resolve_in_hit. apply match_group. by exists v.
Qed.

Lemma resolve_brand (v : string) :
  valid_arg str_converter v →
  resolve ("brand/" +:+ v +:+ "/")
  = Some (list_brand, [("brand_name", v)]).
Proof.
  intros [Hne Hall]. unfold resolve, urlpatterns.
  do 3 rewrite resolve_in_skip by reflexivity.
  apply resolve_in_hit. apply match_group. by exists v.
Qed.

Lemma match_empty (s : string) (kw : list (string * string)) :
  match_route [] s = Some kw ↔ s = EmptyString ∧ kw = [].
Proof.
  cbn [match_route]. destruct (decide (s = EmptyString)) as [->|Hne].
  - split; [by intros [= <-]|by intros [_ ->]].
  - split; [done|]. by intros [? _].
Qed.

Lemma match_literal (l s : string) (kw : list (string * string)) :
  match_route [Lit l] s = Some kw ↔ s = l ∧ kw = [].
Proof.
  cbn [match_route]. split.
  - destruct (strip_prefix l s) as [s1|] eqn:Hs; [|done].
    apply strip_prefix_Some in Hs as ->. cbn [mbind option_bind].
    destruct (decide (s1 = EmptyString)) as [->|]; [|done].
    intros [= <-]. split; [|done].
    clear. induction l as [|a l IH]; [done|]. rewrite append_cons.
    by rewrite IH.
  - intros [-> ->].
    assert (strip_prefix l l = Some EmptyString) as ->.
    { apply strip_prefix_Some. clear. induction l as [|a l IH]; [done|].
      rewrite append_cons. by rewrite <- IH. }
    reflexivity.
Qed.

Lemma route_reaches (r : Route) (s : string) (kw : list (string * string)) :
  r ∈ urlpatterns →
  match_route (route r) s = Some kw ↔ reaches s (view r) kw.
Proof.
  unfold urlpatterns. rewrite !elem_of_cons, elem_of_nil.
  intros [->|[->|[->|[->|[->|[]]]]]]; cbn [route view path reaches].
  - apply match_empty.
  - rewrite match_group. unfold valid_arg.
    split; intros [x H]; exists x; tauto.
  - rewrite match_group. unfold valid_arg.
    split; intros [x H]; exists x; tauto.
  - rewrite match_group. unfold valid_arg.
    split; intros [x H]; exists x; tauto.
  - apply match_literal.
Qed.

Lemma reaches_resolve (s : string) (v : View) (kw : list (string * string)) :
  reaches s v kw → resolve s = Some (v, kw).
Proof.
  destruct v; cbn [reaches].
  - by intros [-> ->].
  - intros (x & Hx & -> & ->). by apply resolve_product.
  - intros (x & Hx & -> & ->). by apply resolve_category.
  - intros (x & Hx & -> & ->). by apply resolve_brand.
  - by intros [-> ->].
Qed.

(** X16. The table sends a path to the storefront for the empty path, to
    the search for "search-products/", and to the product, category and
    brand views for "product/x/", "search/x/" and "brand/x/" with a
    non-empty [x] made of letters, digits, hyphens and underscores (for a
    brand: of any characters but the slash), passing [x] as the argument;
    it resolves no other path. *)
Theorem resolve_characterised (s : string) (v : View)
    (kw : list (string * string)) :
  resolve s = Some (v, kw) ↔ reaches s v kw.
Proof.
  split; [|apply reaches_resolve].
  unfold resolve.
  assert (Hgo : ∀ rs, (∀ r, r ∈ rs → r ∈ urlpatterns) →
                      resolve_in rs s = Some (v, kw) → reaches s v kw).
  { induction rs as [|r rs IH]; intros Hsub; cbn [resolve_in]; [done|].
    destruct (match_route (route r) s) as [kw'|] eqn:Hm.
    - intros [= <- <-]. apply route_reaches; [|done]. apply Hsub. by left.
    - apply IH. intros r' Hr'. apply Hsub. by right. }
  by apply Hgo.
Qed.

(** X17. No route of the table hides another: whichever route matches a
    path, [resolve] answers with that route's view and arguments, so the
    order of the table does not matter. *)
Theorem resolve_no_shadowing (r : Route) (s : string)
    (kw : list (string * string)) :
  r ∈ urlpatterns →
  match_route (route r) s = Some kw →
  resolve s = Some (view r, kw).
Proof.
  intros Hr Hm. apply reaches_resolve. by apply route_reaches.
Qed.

End Routing.

(** *** The further properties on the sample database *)

Lemma restock_double_returns : always_returns (Doubles.restock []).
Proof. intros refund w. by exists (). Qed.

Lemma restock_down_raises : always_raises Doubles.restock_down.
Proof. intros refund w. by eexists. Qed.

Lemma rewards_double_succeeds : rewards_succeeds (Doubles.process_rewards []).
Proof.
  intros refund w. unfold Doubles.process_rewards. simpl.
  by destruct (user (row refund)).
Qed.

Lemma rewards_double_frame (broken : list Z) :
  rewards_frame (Doubles.process_rewards broken).
Proof.
  intros refund w. unfold Doubles.process_rewards.
  destruct (bool_decide (id refund ∈ broken)); [done|].
  by destruct (user (row refund)).
Qed.

Lemma restore_double_keeps (already : list Z) :
  keeps_instance (Doubles.restore already).
Proof.
  intros refund w. unfold Doubles.restore.
  destruct (bool_decide (id refund ∈ already)); [done|].
  by destruct (user (row refund)).
Qed.

(** No request of the sample database is PRODUCT_RECEIVED; once request 1
    is, the action moves it on and leaves request 3 alone. *)
Lemma process_paypal_refund_effect_witness :
  let w := mark_product_received (Doubles.restock []) [1] Doubles.db in
  let w' := process_paypal_refund [1; 3] w in
  refunds w' !! 1
  = Some {| status := PROCESSING_REFUND;
            user := Some {| username := "alice" |};
            rewards_used := 500; product_received_at := Some 1700000000;
            refund_completed_at := None; rejection_reason := EmptyString;
            admin_notes := EmptyString |}
  ∧ status <$> refunds w' !! 1 = Some PROCESSING_REFUND
  ∧ refunds w' !! 3 = Some (row Doubles.r3)
  ∧ refunds w' !! 2 = refunds w !! 2.
Proof.
  intros w w'.
  destruct (process_paypal_refund_effect [1; 3] w)
    as (Hsel & Hother & Hout & _).
  assert (H1 : refunds w' !! 1
               = Some {| status := PROCESSING_REFUND;
                         user := Some {| username := "alice" |};
                         rewards_used := 500;
                         product_received_at := Some 1700000000;
                         refund_completed_at := None;
                         rejection_reason := EmptyString;
                         admin_notes := EmptyString |}).
  { apply (Hsel 1 {| status := PRODUCT_RECEIVED;
                     user := Some {| username := "alice" |};
                     rewards_used := 500;
                     product_received_at := Some 1700000000;
                     refund_completed_at := None;
                     rejection_reason := EmptyString;
                     admin_notes := EmptyString |});
      [by left | reflexivity | reflexivity]. }
  split; [exact H1|]. split.
  { rewrite H1. reflexivity. }
  split.
  { apply (Hother 3 (row Doubles.r3)); [reflexivity | discriminate]. }
  apply (Hout 2). refine (bool_decide_unpack _ _). vm_compute. exact I.
Defined.

(** Requests 1 (PENDING_RETURN) and 3 (PROCESSING_REFUND) selected. *)
Lemma manual_restock_items_frame_witness :
  let restock := Doubles.restock [] in
  let w' := manual_restock_items restock [1; 3] Doubles.db in
  restock_frame restock
  ∧ refunds w' = refunds Doubles.db
  ∧ items_of 1 w' = items_of 1 Doubles.db
  ∧ items_of 2 w' = items_of 2 Doubles.db.
Proof.
  intros restock w'.
  assert (H1 : restock_frame restock) by apply restock_double_frame.
  split; [exact H1|].
  destruct (manual_restock_items_frame restock [1; 3] Doubles.db H1)
    as (Hr & Hout & Hstate).
  split; [exact Hr|]. split.
  { apply (Hstate 1 (row Doubles.r1)); [reflexivity | by left]. }
  apply (Hout 2). refine (bool_decide_unpack _ _). vm_compute. exact I.
Defined.

(** Requests 3 and 5 are past product reception, request 1 is not. *)
Lemma manual_restock_items_reports_witness :
  always_returns (Doubles.restock [])
  ∧ last (messages (manual_restock_items (Doubles.restock []) [1; 3; 5]
                      Doubles.db))
    = Some {| level := SUCCESS;
              text := "Manually restocked items for 2 refund(s)." |}.
Proof.
  split; [exact restock_double_returns|].
  exact (manual_restock_items_reports (Doubles.restock []) [1; 3; 5]
           Doubles.db restock_double_returns).
Defined.

Lemma manual_restock_items_all_fail_witness :
  always_raises Doubles.restock_down
  ∧ last (messages (manual_restock_items Doubles.restock_down [3; 5]
                      Doubles.db))
    = Some {| level := WARNING; text := manual_nothing |}.
Proof.
  split; [exact restock_down_raises|].
  exact (manual_restock_items_all_fail Doubles.restock_down [3; 5]
           Doubles.db restock_down_raises).
Defined.

(** Request 3, of a registered user, when the helper returns. *)
Lemma complete_refund_helper_returns_witness :
  let process := Doubles.process_rewards [] in
  let w2 := (process Doubles.r3 Doubles.db).1.2 in
  let refund2 :=
    assign (set_refund_completed_at 1700000000)
           (assign (set_status COMPLETED) Doubles.r3) in
  filter_status PROCESSING_REFUND [3; 4] Doubles.db
    = [] ++ Doubles.r3 :: [Doubles.r4]
  ∧ complete_loop process (Doubles.db, 0) [] = (Doubles.db, 0)
  ∧ user (row Doubles.r3) = Some {| username := "bob" |}
  ∧ process Doubles.r3 Doubles.db = (Doubles.r3, w2, Returned ())
  ∧ complete_body process (Doubles.db, 0) Doubles.r3
    = (save refund2 w2, 0 + 1)
  ∧ refunds (save refund2 w2) !! 3 = Some (row refund2).
Proof.
  intros process w2 refund2.
  assert (H1 : filter_status PROCESSING_REFUND [3; 4] Doubles.db
               = [] ++ Doubles.r3 :: [Doubles.r4]) by (vm_compute; reflexivity).
  assert (H2 : complete_loop process (Doubles.db, 0) [] = (Doubles.db, 0))
    by reflexivity.
  assert (H3 : user (row Doubles.r3) = Some {| username := "bob" |})
    by reflexivity.
  assert (H4 : process Doubles.r3 Doubles.db = (Doubles.r3, w2, Returned ()))
    by (vm_compute; reflexivity).
  split; [exact H1|]. split; [exact H2|]. split; [exact H3|].
  split; [exact H4|].
  destruct (complete_refund_helper_returns process [3; 4] Doubles.db
              [] [Doubles.r4] Doubles.r3 Doubles.db 0 _ Doubles.r3 w2
              H1 H2 H3 H4) as (Hbody & Hrow & _).
  split; [exact Hbody|]. exact Hrow.
Defined.

(** A completed request alone, and the empty selection. *)
Lemma actions_skip_other_states_witness :
  mark_product_received (Doubles.restock []) [5] Doubles.db
  = message_user SUCCESS (mark_summary 0) Doubles.db
  ∧ complete_refund (Doubles.process_rewards []) [] Doubles.db
    = message_user SUCCESS (complete_summary 0) Doubles.db.
Proof.
  destruct (actions_skip_other_states (Doubles.restock [])
              (Doubles.process_rewards []) [5] Doubles.db)
    as (Hmark & _).
  destruct (actions_skip_other_states (Doubles.restock [])
              (Doubles.process_rewards []) [] Doubles.db)
    as (_ & _ & _ & Hcomplete).
  split.
  - apply Hmark. intros i r Hi Hr.
    apply elem_of_cons in Hi as [->|Hi]; [|by apply elem_of_nil in Hi].
    vm_compute in Hr. injection Hr as <-. discriminate.
  - apply Hcomplete. intros i r Hi. by apply elem_of_nil in Hi.
Defined.

(** Request 5 is COMPLETED and selected with the others. *)
Lemma terminal_states_absorbing_witness :
  let restock := Doubles.restock [2] in
  let process := Doubles.process_rewards [3] in
  let qs := [1; 2; 3; 4; 5] in
  restock_frame restock
  ∧ rewards_frame process
  ∧ refunds Doubles.db !! 5 = Some (row Doubles.r5)
  ∧ status (row Doubles.r5) ∈ [COMPLETED; REJECTED]
  ∧ refunds (mark_product_received restock qs Doubles.db) !! 5
    = Some (row Doubles.r5)
  ∧ refunds (complete_refund process qs Doubles.db) !! 5
    = Some (row Doubles.r5)
  ∧ refunds (reject_refund qs Doubles.db) !! 5 = Some (row Doubles.r5).
Proof.
  intros restock process qs.
  assert (H1 : restock_frame restock) by apply restock_double_frame.
  assert (H2 : rewards_frame process) by apply rewards_double_frame.
  assert (H3 : refunds Doubles.db !! 5 = Some (row Doubles.r5))
    by reflexivity.
  assert (H4 : status (row Doubles.r5) ∈ [COMPLETED; REJECTED]) by (by left).
  split; [exact H1|]. split; [exact H2|]. split; [exact H3|].
  split; [exact H4|].
  destruct (terminal_states_absorbing restock process qs Doubles.db 5
              (row Doubles.r5) H1 H2 H3 H4) as (Hm & _ & _ & Hc & Hr).
  split; [exact Hm|]. split; [exact Hc|]. exact Hr.
Defined.

Lemma complete_refund_frame_witness :
  let process := Doubles.process_rewards [3] in
  let w' := complete_refund process [1; 3; 4] Doubles.db in
  rewards_frame process
  ∧ refunds w' !! 1 = Some (row Doubles.r1)
  ∧ refunds w' !! 2 = refunds Doubles.db !! 2.
Proof.
  intros process w'.
  assert (H1 : rewards_frame process) by apply rewards_double_frame.
  split; [exact H1|].
  destruct (complete_refund_frame process [1; 3; 4] Doubles.db H1)
    as (Hother & Hout & _).
  split.
  { apply (Hother 1 (row Doubles.r1)); [reflexivity | discriminate]. }
  apply (Hout 2). refine (bool_decide_unpack _ _). vm_compute. exact I.
Defined.

(** Request 1 through the three actions. *)
Lemma refund_pipeline_witness :
  let restock := Doubles.restock [] in
  let process := Doubles.process_rewards [] in
  let qs := [1; 2] in
  restock_frame restock
  ∧ rewards_succeeds process
  ∧ 1 ∈ qs
  ∧ refunds Doubles.db !! 1 = Some (row Doubles.r1)
  ∧ status (row Doubles.r1) = PENDING_RETURN
  ∧ ∃ t1 t2,
      refunds (complete_refund process qs
                 (process_paypal_refund qs
                    (mark_product_received restock qs Doubles.db))) !! 1
      = Some {| status := COMPLETED;
                user := Some {| username := "alice" |};
                rewards_used := 500;
                product_received_at := Some t1;
                refund_completed_at := Some t2;
                rejection_reason := EmptyString;
                admin_notes := EmptyString |}.
Proof.
  intros restock process qs.
  assert (H1 : restock_frame restock) by apply restock_double_frame.
  assert (H2 : rewards_succeeds process) by apply rewards_double_succeeds.
  assert (H3 : 1 ∈ qs) by (by left).
  assert (H4 : refunds Doubles.db !! 1 = Some (row Doubles.r1)) by reflexivity.
  assert (H5 : status (row Doubles.r1) = PENDING_RETURN) by reflexivity.
  split; [exact H1|]. split; [exact H2|]. split; [exact H3|].
  split; [exact H4|]. split; [exact H5|].
  exact (refund_pipeline restock process qs Doubles.db 1 (row Doubles.r1)
           H1 H2 H3 H4 H5).
Defined.

Lemma mark_product_received_twice_witness :
  let restock := Doubles.restock [2] in
  let w1 := mark_product_received restock [1; 2; 3] Doubles.db in
  restock_frame restock
  ∧ mark_product_received restock [1; 2; 3] w1
    = message_user SUCCESS (mark_summary 0) w1.
Proof.
  intros restock w1.
  assert (H1 : restock_frame restock) by apply restock_double_frame.
  split; [exact H1|].
  exact (mark_product_received_twice restock [1; 2; 3] Doubles.db H1).
Defined.

(** Requests 1 and 3 are open, request 5 is completed, 9 does not exist. *)
Lemma reject_refund_count_witness :
  NoDup [1; 3; 5; 9]
  ∧ last (messages (reject_refund [1; 3; 5; 9] Doubles.db))
    = Some {| level := WARNING;
              text := "2 refund(s) rejected. Please add rejection reason in admin notes." |}.
Proof.
  assert (H1 : NoDup [1; 3; 5; 9])
    by (refine (bool_decide_unpack _ _); vm_compute; exact I).
  split; [exact H1|].
  exact (reject_refund_count [1; 3; 5; 9] Doubles.db H1).
Defined.

(** Two guest orders and a registered user without rewards used. *)
Lemma restore_rewards_goodwill_none_eligible_witness :
  (∀ x, x ∈ fetch [2; 4; 5] Doubles.db → ¬ eligible x)
  ∧ restore_rewards_goodwill (Doubles.restore []) [2; 4; 5] Doubles.db
    = (message_user WARNING
         ("No rewards restored: 1 had no rewards used in original purchase, "
          +:+ "2 were guest orders (no rewards to restore)") Doubles.db,
       Returned ()).
Proof.
  assert (H1 : ∀ x, x ∈ fetch [2; 4; 5] Doubles.db → ¬ eligible x).
  { intros x Hx [Hu Hpos].
    change (fetch [2; 4; 5] Doubles.db)
      with [Doubles.r2; Doubles.r4; Doubles.r5] in Hx.
    rewrite !elem_of_cons, elem_of_nil in Hx.
    destruct Hx as [->|[->|[->|[]]]]; vm_compute in Hu, Hpos; discriminate. }
  split; [exact H1|].
  exact (restore_rewards_goodwill_none_eligible (Doubles.restore [])
           [2; 4; 5] Doubles.db H1).
Defined.

(** Request 1 restored now, request 3 restored earlier. *)
Lemma restore_reported_total_witness :
  keeps_instance (Doubles.restore [3])
  ∧ match restore_loop (Doubles.restore [3]) (fetch [1; 3] Doubles.db) []
            zero Doubles.db with
    | (_, Returned (cache, _)) => reported_total cache = 1200
    | (_, Raised _) => False
    end.
Proof.
  assert (H1 : keeps_instance (Doubles.restore [3]))
    by apply restore_double_keeps.
  split; [exact H1|].
  pose proof (restore_reported_total (Doubles.restore [3]) [1; 3] Doubles.db
                H1) as H.
  cbv zeta in H.
  destruct (restore_loop (Doubles.restore [3]) (fetch [1; 3] Doubles.db) []
              zero Doubles.db) as [w' [[cache c]|e]] eqn:E.
  - destruct H as [-> _]. vm_compute. reflexivity.
  - vm_compute in E. discriminate.
Defined.

Lemma resolve_no_shadowing_witness :
  let r := StoreUrls.path [StoreUrls.Lit "search-products/"]
             StoreUrls.search_products "search-products" in
  r ∈ StoreUrls.urlpatterns
  ∧ StoreUrls.match_route (StoreUrls.route r) "search-products/" = Some []
  ∧ StoreUrls.resolve "search-products/"
    = Some (StoreUrls.search_products, []).
Proof.
  intros r.
  assert (H1 : r ∈ StoreUrls.urlpatterns) by (do 4 right; by left).
  assert (H2 : StoreUrls.match_route (StoreUrls.route r) "search-products/"
               = Some []) by reflexivity.
  split; [exact H1|]. split; [exact H2|].
  exact (resolve_no_shadowing r "search-products/" [] H1 H2).
Defined.
